(** * TeaVPN2: virtual interface allocation and IPv4 set-up

    A shallow embedding of [helpers/linux/iface.c]: [tun_alloc] (the TUN/TAP
    device allocator with its one-shot fallback to the legacy control node) and
    [raise_up_iface] (address arithmetic, shell escaping and the two
    [/sbin/ip] commands), together with the properties the specification
    states about them.

    Conventions.
    - A C string is the list of its characters, the terminating NUL left
      implicit; a [char x[N]] buffer can hold a string of at most [N - 1]
      characters.
    - Unsigned machine integers are values of [N] with the wrap-around written
      out; [int] values (file descriptors, return codes, flags) are in [Z].
    - Calls into the operating system are answered by oracles that see the
      whole history of the process; every call is recorded as an [event].
    - A write that would run past the end of a local buffer is undefined
      behaviour in C; the embedding stops there with [Overrun].
    - The logging calls ([pr_error], [prl_notice]) act on nothing the
      properties speak of and are left out. *)

From Stdlib Require Import Ascii String NArith ZArith Bool Lia List.
From Stdlib Require Import DecimalString.
From Stdlib Require DecimalFacts DecimalPos.
From Equations Require Import Equations.
From Equations.Prop Require Import Logic.
Import ListNotations.

(** ** C strings *)

Definition cstr := list ascii.

(** A string literal of the source. *)
Definition lit (s : string) : cstr := list_ascii_of_string s.

(** [strncpy(dst, src, n)] into a zero-initialised buffer of more than [n]
    bytes: the buffer then reads as the first [n] characters of [src]. *)
Definition strncpy (src : cstr) (n : nat) : cstr := firstn n src.

(** [strnlen(s, maxlen)]. *)
Definition strnlen (s : cstr) (maxlen : nat) : nat := Nat.min (length s) maxlen.

(** [snprintf(dst, size, ...)] keeps at most [size - 1] characters of the
    formatted text [s]. *)
Definition snprintf (size : nat) (s : cstr) : cstr := firstn (size - 1) s.

(** Conversion [%u] (and [%d] on a non-negative value): the decimal numeral. *)
Definition utoa (n : N) : cstr :=
  list_ascii_of_string (NilZero.string_of_uint (N.to_uint n)).

(** ** Outcome of code that may write past a buffer *)

Inductive outcome (A : Type) : Type :=
| Ok (a : A)
| Overrun.

Arguments Ok {A} a.
Arguments Overrun {A}.

Definition bind {A B : Type} (m : outcome A) (k : A -> outcome B) : outcome B :=
  match m with
  | Ok a => k a
  | Overrun => Overrun
  end.

Notation "x <- m ;; k" := (bind m (fun x => k))
  (at level 61, m at next level, right associativity).

(** A string stored with its terminator into a buffer of [cap] bytes by a
    routine that is not told the capacity. *)
Definition store_str (cap : nat) (s : cstr) : outcome cstr :=
  if length s + 1 <=? cap then Ok s else Overrun.

(** [snprintf(buf + off, size, ...)] on a buffer of [cap] bytes holding
    [buf]: the text is cut to [size - 1] characters and written, with its
    terminator, from offset [off] on. *)
Definition snprintf_at (cap : nat) (buf : cstr) (off size : nat) (s : cstr)
  : outcome cstr :=
  let w := snprintf size s in
  if off + length w + 1 <=? cap then Ok (firstn off buf ++ w) else Overrun.

(** ** IPv4 text and binary forms (the C library's [arpa/inet.h]) *)

(** The four bytes of a [struct in_addr], in memory (network) order. *)
Record in_addr : Type := Octets { oc0 : N; oc1 : N; oc2 : N; oc3 : N }.

Definition is_digit (ch : ascii) : bool :=
  ((48 <=? N_of_ascii ch) && (N_of_ascii ch <=? 57))%N.

Definition digit_val (ch : ascii) : N := (N_of_ascii ch - 48)%N.

(** Scanner state of the dotted-quad reader: whether the octet under way has
    a digit yet, how many octets were started, the octets completed so far
    and the value of the one under way. *)
Record pton_state : Type := PtonState {
  saw_digit : bool;
  octets : nat;
  tmp_done : list N;
  tmp_cur : N
}.

Definition pton_init : pton_state := PtonState false 0 [] 0%N.

(** Modelled from the spec: [inet_pton] belongs to the C library and is not
    among the sources; a dotted-quad is "four decimal octets separated by
    periods". The acceptance rule is the one of the GNU C library's
    [inet_pton4]: one character at a time, an octet is a decimal number of
    value at most 255 written without a leading zero, exactly four octets,
    a period only after a digit. *)
Definition pton_step (st : pton_state) (ch : ascii) : option pton_state :=
  if is_digit ch then
    let new := (tmp_cur st * 10 + digit_val ch)%N in
    if saw_digit st && (tmp_cur st =? 0)%N then None
    else if (255 <? new)%N then None
    else if saw_digit st then
      Some (PtonState true (octets st) (tmp_done st) new)
    else if 4 <? S (octets st) then None
    else Some (PtonState true (S (octets st)) (tmp_done st) new)
  else if Ascii.eqb ch "."%char && saw_digit st then
    if octets st =? 4 then None
    else Some (PtonState false (octets st) (tmp_done st ++ [tmp_cur st]) 0%N)
  else None.

Fixpoint pton_scan (st : pton_state) (src : cstr) : option pton_state :=
  match src with
  | [] => Some st
  | ch :: rest =>
      match pton_step st ch with
      | Some st' => pton_scan st' rest
      | None => None
      end
  end.

(** [inet_pton(AF_INET, src, &dst)]: [Some] octets when it returns 1, [None]
    when it returns 0 (the text is not a dotted-quad). *)
Definition inet_pton (src : cstr) : option in_addr :=
  match pton_scan pton_init src with
  | Some st =>
      if octets st <? 4 then None
      else
        match tmp_done st ++ [tmp_cur st] with
        | [a; b; c; d] => Some (Octets a b c d)
        | _ => None
        end
  | None => None
  end.

(** The text [%u.%u.%u.%u] of four octets. *)
Definition dotted (a : in_addr) : cstr :=
  utoa (oc0 a) ++ lit "." ++ utoa (oc1 a) ++ lit "." ++
  utoa (oc2 a) ++ lit "." ++ utoa (oc3 a).

(** Modelled from the spec: [inet_ntop] belongs to the C library and is not
    among the sources; it renders the four octets "back to dotted-quad text"
    and fails (NULL) when the text with its terminator does not fit [size]
    bytes. *)
Definition inet_ntop (a : in_addr) (size : nat) : option cstr :=
  let t := dotted a in
  if size <=? length t then None else Some t.

(** ** Host integers behind a [__be32] *)

(** A [__be32] holds the four octets in memory order; what the program reads
    when it uses the variable as an integer depends on the byte order of the
    host. *)
Inductive byte_order : Type := LittleEndian | BigEndian.

Definition be32_load (host : byte_order) (a : in_addr) : N :=
  match host with
  | LittleEndian => oc0 a + 2 ^ 8 * oc1 a + 2 ^ 16 * oc2 a + 2 ^ 24 * oc3 a
  | BigEndian => oc3 a + 2 ^ 8 * oc2 a + 2 ^ 16 * oc1 a + 2 ^ 24 * oc0 a
  end%N.

(** Byte [k] (counted from the least significant one) of a host integer. *)
Definition byte_at (v k : N) : N := N.land (N.shiftr v (8 * k)) 255.

Definition be32_store (host : byte_order) (v : N) : in_addr :=
  match host with
  | LittleEndian => Octets (byte_at v 0) (byte_at v 1) (byte_at v 2) (byte_at v 3)
  | BigEndian => Octets (byte_at v 3) (byte_at v 2) (byte_at v 1) (byte_at v 0)
  end.

Definition u8 (n : N) : N := (n mod 2 ^ 8)%N.
Definition u16 (n : N) : N := (n mod 2 ^ 16)%N.

(** [short] value of an [int] stored into [ifr_flags]. *)
Definition to_short (z : Z) : Z := ((z + 2 ^ 15) mod 2 ^ 16 - 2 ^ 15)%Z.

(** [while (tmp) { cidr++; tmp >>= 1; }] on a non-zero [tmp]: the binary
    numeral loses its lowest digit at every turn, [cidr] being a [uint8_t]. *)
Fixpoint cidr_loop_pos (tmp : positive) (cidr : N) : N :=
  match tmp with
  | xH => u8 (cidr + 1)
  | xO tmp' | xI tmp' => cidr_loop_pos tmp' (u8 (cidr + 1))
  end.

Definition cidr_loop (tmp cidr : N) : N :=
  match tmp with
  | N0 => cidr
  | Npos p => cidr_loop_pos p cidr
  end.

(** The number of set bits of a mask: the prefix length of the
    specification's glossary ("count of leading one-bits") for a contiguous
    mask. *)
Fixpoint popcount_pos (p : positive) : N :=
  match p with
  | xH => 1
  | xO q => popcount_pos q
  | xI q => popcount_pos q + 1
  end%N.

Definition popcount (v : N) : N :=
  match v with
  | N0 => 0%N
  | Npos p => popcount_pos p
  end.

(** ** Data of the two operations *)

(** [struct srv_iface_cfg], the caller's configuration. *)
Record srv_iface_cfg : Type := {
  dev : cstr;
  mtu : N;
  ipv4 : cstr;
  ipv4_netmask : cstr
}.

(** The part of [struct ifreq] that [tun_alloc] fills in. *)
Record ifreq : Type := { ifr_name : cstr; ifr_flags : Z }.

(** What the process asked of the operating system, with the answer. *)
Inductive event : Type :=
| EvOpen (path : cstr) (fd : Z) (err : Z)
| EvIoctl (fd : Z) (request : Z) (ifr : ifreq) (ret : Z)
| EvClose (fd : Z)
| EvSystem (cmd : cstr) (ret : Z).

Definition EINVAL : Z := 22.
Definition ENOENT : Z := 2.
Definition IFNAMSIZ : nat := 16.
Definition TUNSETIFF : Z := 1074025674.

(** The statics of [tun_alloc] and the history of the process. *)
Record tun_state : Type := {
  retried : bool;
  tun_dev : cstr;
  tun_events : list event
}.

Definition tun_init : tun_state :=
  {| retried := false; tun_dev := lit "/dev/net/tun"; tun_events := [] |}.

(** The one fallback still to come, as a measure for the self-call. *)
Definition fallbacks_left (st : tun_state) : nat :=
  if retried st then 0 else 1.

(** The file descriptors a history leaves open. *)
Fixpoint remove_fd (fd : Z) (l : list Z) : list Z :=
  match l with
  | [] => []
  | x :: l' => if (x =? fd)%Z then l' else x :: remove_fd fd l'
  end.

Fixpoint open_fds_from (acc : list Z) (evs : list event) : list Z :=
  match evs with
  | [] => acc
  | EvOpen _ fd _ :: evs' =>
      open_fds_from (if (fd <? 0)%Z then acc else fd :: acc) evs'
  | EvClose fd :: evs' => open_fds_from (remove_fd fd acc) evs'
  | _ :: evs' => open_fds_from acc evs'
  end.

Definition open_fds (evs : list event) : list Z := open_fds_from [] evs.

(** What [raise_up_iface] works on: the structure its argument points to and
    the history of the process. *)
Record world : Type := {
  w_iface : srv_iface_cfg;
  w_events : list event
}.

(** The local buffers of [raise_up_iface] once the addresses are derived. *)
Record addressing : Type := {
  cidr : N;
  u_ipv4 : cstr;
  b_ipv4_network : N;
  b_ipv4_broadcast : N;
  u_ipv4_network : cstr;
  u_ipv4_broadcast : cstr
}.

(** Modelled from the spec: [escapeshellarg] is declared in
    [teavpn2/global/helpers/string.h] and defined outside the sources at
    hand; it applies "shell-argument-safe quoting". This is the POSIX
    single-quote form: the text between single quotes, every single quote
    of the text written as the four characters quote, backslash, quote,
    quote. *)
Definition escape_char (c : ascii) : cstr :=
  if Ascii.eqb c "'"%char then lit "'\''" else [c].

Definition shell_quote (s : cstr) : cstr :=
  lit "'" ++ flat_map escape_char s ++ lit "'".

(** ** Notions used in the statements and in the proofs *)

(** Every octet fits a byte. *)
Definition in_addr_ok (a : in_addr) : Prop :=
  (oc0 a <= 255 /\ oc1 a <= 255 /\ oc2 a <= 255 /\ oc3 a <= 255)%N.

(** Octet-wise AND of an address and a mask. *)
Definition in_addr_and (a m : in_addr) : in_addr :=
  Octets (N.land (oc0 a) (oc0 m)) (N.land (oc1 a) (oc1 m))
         (N.land (oc2 a) (oc2 m)) (N.land (oc3 a) (oc3 m)).

(** Octet-wise OR of a network address with the complement of the mask. *)
Definition in_addr_or_not (n m : in_addr) : in_addr :=
  Octets (N.lor (oc0 n) (N.lnot (oc0 m) 8)) (N.lor (oc1 n) (N.lnot (oc1 m) 8))
         (N.lor (oc2 n) (N.lnot (oc2 m) 8)) (N.lor (oc3 n) (N.lnot (oc3 m) 8)).

(** The text a scanner state stands for: the octets completed, each with
    its period, and the digits of the octet under way. *)
Definition pton_text (st : pton_state) : cstr :=
  flat_map (fun o => utoa o ++ lit ".") (tmp_done st) ++
  (if saw_digit st then utoa (tmp_cur st) else []).

Definition pton_inv (st : pton_state) : Prop :=
  length (tmp_done st) + (if saw_digit st then 1 else 0) = octets st /\
  octets st <= 4 /\
  (tmp_cur st <= 255)%N /\
  (saw_digit st = false -> tmp_cur st = 0%N) /\
  Forall (fun o => (o <= 255)%N) (tmp_done st).

(** A check of all numbers below [n], for facts settled by evaluation. *)
Fixpoint forall_below (n : nat) (P : N -> bool) : bool :=
  match n with
  | O => true
  | S k => P (N.of_nat k) && forall_below k P
  end.

Definition cstr_eqb (s t : cstr) : bool :=
  if list_eq_dec ascii_dec s t then true else false.

(** ** Sample environments and inputs of the concrete runs *)

Definition IFF_TUN : Z := 1.

(** The control node opens as descriptor 3. *)
Definition open_ok (_ : list event) (_ : cstr) : Z * Z := (3%Z, 0%Z).

(** A host without [/dev/net/tun]: only the legacy node opens. *)
Definition open_primary_missing (_ : list event) (path : cstr) : Z * Z :=
  if cstr_eqb path (lit "/dev/net/tun") then ((-1)%Z, ENOENT) else (3%Z, 0%Z).

Definition ioctl_ok (_ : list event) (_ _ : Z) (_ : ifreq) : Z := 0%Z.
Definition ioctl_refused (_ : list event) (_ _ : Z) (_ : ifreq) : Z := (-1)%Z.

Definition system_ok (_ : list event) (_ : cstr) : Z := 0%Z.
Definition system_fails (_ : list event) (_ : cstr) : Z := (-1)%Z.

(** A name of 16 characters, one more than [IFNAMSIZ - 1]. *)
Definition long_name : cstr := lit "tunnel0123456789".

Definition cfg_10 : srv_iface_cfg :=
  {| dev := lit "tun0"; mtu := 1500;
     ipv4 := lit "10.0.0.1"; ipv4_netmask := lit "255.0.0.0" |}.

Definition cfg_192 : srv_iface_cfg :=
  {| dev := lit "tun0"; mtu := 1500;
     ipv4 := lit "192.168.1.5"; ipv4_netmask := lit "255.255.255.0" |}.

(** A name within the interface-name limit, made of 15 single quotes. *)
Definition cfg_quotes : srv_iface_cfg :=
  {| dev := lit "'''''''''''''''"; mtu := 1500;
     ipv4 := lit "10.0.0.1"; ipv4_netmask := lit "255.0.0.0" |}.

Definition cfg_252 : srv_iface_cfg :=
  {| dev := lit "tun0"; mtu := 1500;
     ipv4 := lit "10.0.0.1"; ipv4_netmask := lit "255.255.255.252" |}.

(** ** Data of the remaining operations *)

(** Request code and flags of [tun_set_queue], from [linux/if_tun.h]. *)
Definition TUNSETQUEUE : Z := 1074025689.
Definition IFF_ATTACH_QUEUE : Z := 512.
Definition IFF_DETACH_QUEUE : Z := 1024.

(** A call of one of the two device operations. *)
Inductive tun_op : Type :=
| OpAlloc (dev : option cstr) (flags : Z)
| OpSetQueue (fd : Z) (enable : bool).

Definition is_open (ev : event) : bool :=
  match ev with
  | EvOpen _ _ _ => true
  | _ => false
  end.

(** The netmask of prefix length [p], a run of [p] leading ones: the octets
    of [2^32 - 2^(32 - p)] in network order. *)
Definition prefix_mask (p : N) : in_addr :=
  be32_store BigEndian (2 ^ 32 - 2 ^ (32 - p)).

(** What [main] does that can be seen from outside: a [printf] with the
    text it writes, the call of [ar_init] with the size of the arena, and
    the call of [teavpn2_run_server] with its arguments and result. *)
Inductive main_event : Type :=
| MePrintf (text : cstr)
| MeArInit (size : N)
| MeRunServer (argv : list cstr) (ret : Z).

(** The newline and the double quote, written with a backslash in the
    source. *)
Definition nl : cstr := ["010"%char].
Definition dq : cstr := ["034"%char].

(** [strncmp(s1, s2, n) == 0]: the strings agree on their first [n]
    characters, or are equal when shorter. *)
Definition strncmp_is_0 (s1 s2 : cstr) (n : nat) : bool :=
  cstr_eqb (firstn n s1) (firstn n s2).

(** [show_general_help(app)], one event for each [printf]. *)
Definition show_general_help (app : cstr) : list main_event :=
  [ MePrintf (lit "Usage: " ++ app ++ lit " [client|server] [options]"
              ++ nl ++ nl);
    MePrintf (lit "See:" ++ nl);
    MePrintf (lit " [Help]" ++ nl);
    MePrintf (lit "   " ++ app ++ lit " server --help" ++ nl);
    MePrintf (lit "   " ++ app ++ lit " client --help" ++ nl);
    MePrintf nl;
    MePrintf (lit " [Version]" ++ nl);
    MePrintf (lit "   " ++ app ++ lit " --version" ++ nl) ].

(** What a list of events wrote to the standard output. *)
Fixpoint stdout_of (evs : list main_event) : cstr :=
  match evs with
  | [] => []
  | MePrintf text :: rest => text ++ stdout_of rest
  | _ :: rest => stdout_of rest
  end.

Definition is_run_server (ev : main_event) : bool :=
  match ev with
  | MeRunServer _ _ => true
  | _ => false
  end.

(** Further sample inputs. *)
Definition long_name' : cstr := lit "tunnel012345678X".

Definition cfg_bad_address : srv_iface_cfg :=
  {| dev := lit "tun0"; mtu := 1500;
     ipv4 := lit "10.0.0.256"; ipv4_netmask := lit "255.0.0.0" |}.

(** The second command is refused, the first accepted. *)
Definition system_second_fails (h : list event) (_ : cstr) : Z :=
  match h with
  | [] => 0%Z
  | _ => (-1)%Z
  end.

Definition run_server_77 (_ : list cstr) : Z := 77%Z.

(** A name of 15 characters, six of them single quotes, written to carry
    a command of its own. *)
Definition cfg_inject : srv_iface_cfg :=
  {| dev := lit "a';reboot;'''''"; mtu := 1500;
     ipv4 := lit "10.0.0.1"; ipv4_netmask := lit "255.0.0.0" |}.

(** A name of 32 plain characters. *)
Definition cfg_name32 : srv_iface_cfg :=
  {| dev := lit "tunnel0123456789tunnel0123456789"; mtu := 1500;
     ipv4 := lit "10.0.0.1"; ipv4_netmask := lit "255.0.0.0" |}.

(** A kernel that binds names but knows no queues. *)
Definition ioctl_no_queue (_ : list event) (_ request : Z) (_ : ifreq) : Z :=
  if (request =? TUNSETQUEUE)%Z then (-1)%Z else 0%Z.

Section Program.

(** Byte order of the host. *)
Variable host : byte_order.

(** [IPV4LEN], from [teavpn2/global/common.h] (not among the sources). *)
Variable IPV4LEN : nat.

(** [escapeshellarg(buf, str, len, NULL)] as a function of the text [str]. *)
Variable escapeshellarg : cstr -> cstr.

(** The operating system: [open(path, O_RDWR)] answers a descriptor (or a
    negative value) and [errno]; [ioctl(fd, request, &ifr)] and
    [system(cmd)] answer their return value. Each sees the history. *)
Variable sys_open : list event -> cstr -> Z * Z.
Variable sys_ioctl : list event -> Z -> Z -> ifreq -> Z.
Variable sys_system : list event -> cstr -> Z.

(** ** [tun_alloc] *)

Definition tun_log (st : tun_state) (ev : event) : tun_state :=
  {| retried := retried st; tun_dev := tun_dev st;
     tun_events := tun_events st ++ [ev] |}.

(** [retried = !retried; tun_dev = "/dev/tun";] *)
Definition tun_fallback (st : tun_state) : tun_state :=
  {| retried := negb (retried st); tun_dev := lit "/dev/tun";
     tun_events := tun_events st |}.

Definition dev_is_empty (dev : option cstr) : bool :=
  match dev with
  | None => true
  | Some [] => true
  | Some (_ :: _) => false
  end.

Definition dev_text (dev : option cstr) : cstr :=
  match dev with
  | None => []
  | Some s => s
  end.

(** Lines 63-70 of the source: bind name and flags to the open descriptor;
    close it again when the kernel refuses. *)
Definition tun_bind (fd : Z) (ifr : ifreq) (st : tun_state) : Z * tun_state :=
  let retval := sys_ioctl (tun_events st) fd TUNSETIFF ifr in
  let st := tun_log st (EvIoctl fd TUNSETIFF ifr retval) in
  if (retval <? 0)%Z then (retval, tun_log st (EvClose fd))
  else (fd, st).

(** [tun_alloc(dev, flags)]; [None] is the NULL pointer. The clauses follow
    the source: the name check, the open of [tun_dev], on a failed open
    either the one fallback with the self-call or the return of [fd], and
    on success the bind. [tun_alloc_eq] below states it as one equation. *)
Equations? tun_alloc (dev : option cstr) (flags : Z) (st : tun_state)
  : Z * tun_state by wf (fallbacks_left st) lt :=
tun_alloc dev flags st with dev_is_empty dev => {
  | true => ((- EINVAL)%Z, st)
  | false with sys_open (tun_events st) (tun_dev st) => {
    | (fd, tmp_err) with (fd <? 0)%Z => {
      | false =>
          tun_bind fd
            {| ifr_name := strncpy (dev_text dev) (IFNAMSIZ - 1);
               ifr_flags := to_short flags |}
            (tun_log st (EvOpen (tun_dev st) fd tmp_err))
      | true with inspect (negb (retried st) && (tmp_err =? ENOENT)%Z) => {
        | exist _ true Hretry =>
            tun_alloc dev flags
              (tun_fallback (tun_log st (EvOpen (tun_dev st) fd tmp_err)))
        | exist _ false _ =>
            (fd, tun_log st (EvOpen (tun_dev st) fd tmp_err)) } } } }.
Proof.
  unfold fallbacks_left; simpl.
  destruct (retried st); simpl in *; [discriminate | lia].
Qed.

(** One allocation in full with no fallback in it: what [tun_alloc] does
    when the way to the self-call is closed. *)
Definition tun_attempt (dev : option cstr) (flags : Z) (st : tun_state)
  : Z * tun_state :=
  if dev_is_empty dev then ((- EINVAL)%Z, st)
  else
    let ifr := {| ifr_name := strncpy (dev_text dev) (IFNAMSIZ - 1);
                  ifr_flags := to_short flags |} in
    let (fd, tmp_err) := sys_open (tun_events st) (tun_dev st) in
    let st1 := tun_log st (EvOpen (tun_dev st) fd tmp_err) in
    if (fd <? 0)%Z then (fd, st1) else tun_bind fd ifr st1.

(** The statics agree: the legacy path is in [tun_dev] exactly when the
    fallback was taken. *)
Definition tun_consistent (st : tun_state) : Prop :=
  tun_dev st = if retried st then lit "/dev/tun" else lit "/dev/net/tun".

(** The calls of a process, one after the other, with the state each one
    leaves (the first state is the one before the first call). *)
Fixpoint tun_alloc_run (calls : list (option cstr * Z)) (st : tun_state)
  : list tun_state :=
  match calls with
  | [] => [st]
  | (dev, flags) :: rest =>
      st :: tun_alloc_run rest (snd (tun_alloc dev flags st))
  end.

(** How often the control-node path differs from one state to the next. *)
Fixpoint switches (sts : list tun_state) : nat :=
  match sts with
  | st1 :: ((st2 :: _) as rest) =>
      (if list_eq_dec ascii_dec (tun_dev st1) (tun_dev st2) then 0 else 1)
      + switches rest
  | _ => 0
  end.

(** ** [raise_up_iface] *)

Definition IPV4SAFE : nat := IPV4LEN + 16.

(** Lines 131-192 of the source: parse netmask and address, derive the
    prefix length, the network and the broadcast address, and render them.
    [Ok None] stands for [return false]. *)
Definition derive_addresses (iface : srv_iface_cfg)
  : outcome (option addressing) :=
  let u_ipv4 := strncpy (ipv4 iface) (IPV4SAFE - 1) in
  let u_ipv4_netmask := strncpy (ipv4_netmask iface) (IPV4SAFE - 1) in
  match inet_pton u_ipv4_netmask with
  | None => Ok None
  | Some m =>
    let b_ipv4_netmask := be32_load host m in
    let cidr := cidr_loop b_ipv4_netmask 0 in
    if (32 <? cidr)%N then Ok None
    else
      match inet_pton u_ipv4 with
      | None => Ok None
      | Some a =>
        let b_ipv4 := be32_load host a in
        u_ipv4 <- snprintf_at IPV4SAFE u_ipv4 (strnlen u_ipv4 IPV4SAFE)
                    IPV4SAFE (lit "/" ++ utoa cidr) ;;
        let b_ipv4_network := N.land b_ipv4 b_ipv4_netmask in
        let b_ipv4_broadcast :=
          N.lor b_ipv4_network (N.lnot b_ipv4_netmask 32) in
        match inet_ntop (be32_store host b_ipv4_network) IPV4SAFE with
        | None => Ok None
        | Some u_ipv4_network =>
          u_ipv4_network <-
            snprintf_at IPV4SAFE u_ipv4_network
              (strnlen u_ipv4_network IPV4SAFE) IPV4SAFE
              (lit "/" ++ utoa cidr) ;;
          match inet_ntop (be32_store host b_ipv4_broadcast) IPV4SAFE with
          | None => Ok None
          | Some u_ipv4_broadcast =>
            Ok (Some {| cidr := cidr;
                        u_ipv4 := u_ipv4;
                        b_ipv4_network := b_ipv4_network;
                        b_ipv4_broadcast := b_ipv4_broadcast;
                        u_ipv4_network := u_ipv4_network;
                        u_ipv4_broadcast := u_ipv4_broadcast |})
          end
        end
      end
  end.

(** [simple_esc_arg(buf, str)] with [buf] of [cap] bytes. *)
Definition simple_esc_arg (cap : nat) (str : cstr) : outcome cstr :=
  store_str cap (escapeshellarg str).

(** [EXEC_CMD(ret, buf, ...)]: format into [buf[1024]], run it. *)
Definition EXEC_CMD (w : world) (text : cstr) : Z * world :=
  let buf := snprintf 1024 text in
  let out := sys_system (w_events w) buf in
  (out, {| w_iface := w_iface w;
           w_events := w_events w ++ [EvSystem buf out] |}).

Definition link_up_text (e_dev : cstr) (mtu : N) : cstr :=
  lit "/sbin/ip link set dev " ++ e_dev ++ lit " up mtu " ++ utoa mtu.

Definition addr_add_text (e_dev e_ipv4 e_ipv4_broadcast : cstr) : cstr :=
  lit "/sbin/ip addr add dev " ++ e_dev ++ lit " " ++ e_ipv4 ++
  lit " broadcast " ++ e_ipv4_broadcast.

Definition raise_up_iface (w : world) : outcome (bool * world) :=
  let iface := w_iface w in
  let mtu := u16 (mtu iface) in
  r <- derive_addresses iface ;;
  match r with
  | None => Ok (false, w)
  | Some d =>
    e_ipv4_network <- simple_esc_arg IPV4SAFE (u_ipv4_network d) ;;
    e_ipv4_broadcast <- simple_esc_arg IPV4SAFE (u_ipv4_broadcast d) ;;
    e_dev <- simple_esc_arg 32 (dev iface) ;;
    e_ipv4 <- simple_esc_arg IPV4SAFE (u_ipv4 d) ;;
    let (ret, w) := EXEC_CMD w (link_up_text e_dev mtu) in
    if (ret <? 0)%Z then Ok (false, w)
    else
      let (ret, w) :=
        EXEC_CMD w (addr_add_text e_dev e_ipv4 e_ipv4_broadcast) in
      if (ret <? 0)%Z then Ok (false, w) else Ok (true, w)
  end.

(** ** [tun_set_queue] *)

(** [tun_set_queue(fd, enable)]: one TUNSETQUEUE request on [fd], with a
    zeroed [ifreq] but for the flag, whose result is returned as it is. *)
Definition tun_set_queue (fd : Z) (enable : bool) (st : tun_state)
  : Z * tun_state :=
  let ifr :=
    {| ifr_name := [];
       ifr_flags :=
         to_short (if enable then IFF_ATTACH_QUEUE else IFF_DETACH_QUEUE) |} in
  let retval := sys_ioctl (tun_events st) fd TUNSETQUEUE ifr in
  (retval, tun_log st (EvIoctl fd TUNSETQUEUE ifr retval)).

Definition tun_step (op : tun_op) (st : tun_state) : Z * tun_state :=
  match op with
  | OpAlloc dev flags => tun_alloc dev flags st
  | OpSetQueue fd enable => tun_set_queue fd enable st
  end.

(** The states a process goes through on a sequence of both operations. *)
Fixpoint tun_run (ops : list tun_op) (st : tun_state) : list tun_state :=
  match ops with
  | [] => [st]
  | op :: rest => st :: tun_run rest (snd (tun_step op st))
  end.

(** ** [main] *)

(** [teavpn2_run_server(argc - 1, argv + 1)], from
    [teavpn2/server/common.h] (not among the sources), as a function of the
    argument vector it is given. *)
Variable teavpn2_run_server : list cstr -> Z.

(** [TEAVPN2_VERSION], from [teavpn2/base.h] (not among the sources): a
    string literal, taken to hold no conversion specification. *)
Variable TEAVPN2_VERSION : cstr.

(** [main(argc, argv)] with [argv[0]] the program name [app] and
    [argv + 1] the list [args], so that [argc] is [1 + length args]. *)
Definition main (app : cstr) (args : list cstr) : Z * list main_event :=
  match args with
  | [] => (0%Z, show_general_help app)
  | argv1 :: _ =>
      let evs := [MeArInit 16384] in
      if strncmp_is_0 argv1 (lit "server") 6 then
        let ret := teavpn2_run_server args in
        (ret, evs ++ [MeRunServer args ret])
      else if strncmp_is_0 argv1 (lit "client") 6 then (0%Z, evs)
      else if strncmp_is_0 argv1 (lit "--version") 9 then
        (0%Z, evs ++ [MePrintf (lit "TeaVPN2 " ++ TEAVPN2_VERSION ++ nl)])
      else
        (EINVAL,
         evs ++ MePrintf (lit "Invalid argument: " ++ dq ++ argv1 ++ dq ++ nl)
             :: show_general_help app)
  end.

(** * Properties *)

(** ** [tun_alloc] *)

Lemma tun_alloc_eq (dev : option cstr) (flags : Z) (st : tun_state) :
  tun_alloc dev flags st =
  if dev_is_empty dev then ((- EINVAL)%Z, st)
  else
    let ifr := {| ifr_name := strncpy (dev_text dev) (IFNAMSIZ - 1);
                  ifr_flags := to_short flags |} in
    let (fd, tmp_err) := sys_open (tun_events st) (tun_dev st) in
    let st1 := tun_log st (EvOpen (tun_dev st) fd tmp_err) in
    if (fd <? 0)%Z then
      if negb (retried st) && (tmp_err =? ENOENT)%Z
      then tun_alloc dev flags (tun_fallback st1)
      else (fd, st1)
    else tun_bind fd ifr st1.
Proof.
  funelim (tun_alloc dev flags st);
    repeat match goal with
           | H : dev_is_empty _ = _ |- _ => rewrite H
           | H : sys_open _ _ = _ |- _ => rewrite H
           | H : (_ <? _)%Z = _ |- _ => rewrite H
           | H : negb _ && _ = _ |- _ => rewrite H
           end;
    reflexivity.
Qed.

(** With the fallback behind it, [tun_alloc] is a single attempt. *)
Lemma tun_alloc_retried (dev : option cstr) (flags : Z) (st : tun_state) :
  retried st = true -> tun_alloc dev flags st = tun_attempt dev flags st.
Proof.
  intros Hr. rewrite tun_alloc_eq. unfold tun_attempt.
  destruct (dev_is_empty dev); [reflexivity |].
  destruct (sys_open (tun_events st) (tun_dev st)) as [fd err].
  rewrite Hr. reflexivity.
Qed.

(** The two ways through [tun_alloc]: a single attempt, or the fallback
    followed by a single attempt on the legacy path. *)
Lemma tun_alloc_cases (dev : option cstr) (flags : Z) (st : tun_state) :
  let (fd, err) := sys_open (tun_events st) (tun_dev st) in
  let st1 := tun_log st (EvOpen (tun_dev st) fd err) in
  tun_alloc dev flags st =
  if negb (dev_is_empty dev) && (fd <? 0)%Z && negb (retried st)
     && (err =? ENOENT)%Z
  then tun_attempt dev flags (tun_fallback st1)
  else tun_attempt dev flags st.
Proof.
  destruct (sys_open (tun_events st) (tun_dev st)) as [fd err] eqn:Hopen.
  cbv zeta. rewrite tun_alloc_eq. unfold tun_attempt at 2.
  destruct (dev_is_empty dev) eqn:Hdev; simpl; [reflexivity |].
  rewrite Hopen.
  destruct (fd <? 0)%Z; simpl; [| reflexivity].
  destruct (retried st) eqn:Hr; simpl; [reflexivity |].
  destruct (err =? ENOENT)%Z; [| reflexivity].
  apply tun_alloc_retried. simpl. rewrite Hr. reflexivity.
Qed.

Lemma tun_bind_statics (fd : Z) (ifr : ifreq) (st : tun_state) :
  retried (snd (tun_bind fd ifr st)) = retried st /\
  tun_dev (snd (tun_bind fd ifr st)) = tun_dev st.
Proof.
  unfold tun_bind.
  destruct (sys_ioctl (tun_events st) fd TUNSETIFF ifr <? 0)%Z; simpl; auto.
Qed.

Lemma tun_attempt_statics (dev : option cstr) (flags : Z) (st : tun_state) :
  retried (snd (tun_attempt dev flags st)) = retried st /\
  tun_dev (snd (tun_attempt dev flags st)) = tun_dev st.
Proof.
  unfold tun_attempt.
  destruct (dev_is_empty dev); simpl; [auto |].
  destruct (sys_open (tun_events st) (tun_dev st)) as [fd err].
  destruct (fd <? 0)%Z; simpl; [auto |].
  match goal with
  | |- context [tun_bind ?f ?i ?s] =>
      destruct (tun_bind_statics f i s) as [H1 H2]; rewrite H1, H2
  end.
  simpl. auto.
Qed.

(** A call keeps the statics, or it takes the fallback. *)
Lemma tun_alloc_statics (dev : option cstr) (flags : Z) (st : tun_state) :
  let st' := snd (tun_alloc dev flags st) in
  (retried st' = retried st /\ tun_dev st' = tun_dev st) \/
  (retried st = false /\ retried st' = true /\ tun_dev st' = lit "/dev/tun").
Proof.
  cbv zeta. pose proof (tun_alloc_cases dev flags st) as Hc.
  destruct (sys_open (tun_events st) (tun_dev st)) as [fd err].
  cbv zeta in Hc. rewrite Hc.
  destruct (negb (dev_is_empty dev) && (fd <? 0)%Z && negb (retried st)
            && (err =? ENOENT)%Z) eqn:Hsw.
  - right.
    apply andb_true_iff in Hsw. destruct Hsw as [Hsw _].
    apply andb_true_iff in Hsw. destruct Hsw as [_ Hr].
    apply negb_true_iff in Hr.
    destruct (tun_attempt_statics dev flags
                (tun_fallback (tun_log st (EvOpen (tun_dev st) fd err))))
      as [H1 H2].
    rewrite H1, H2. simpl. rewrite Hr. auto.
  - left. apply tun_attempt_statics.
Qed.

Lemma tun_alloc_consistent (dev : option cstr) (flags : Z) (st : tun_state) :
  tun_consistent st -> tun_consistent (snd (tun_alloc dev flags st)).
Proof.
  unfold tun_consistent. intros Hc.
  destruct (tun_alloc_statics dev flags st) as [[H1 H2] | [_ [H1 H2]]];
    rewrite H1, H2; [assumption | reflexivity].
Qed.

Lemma tun_alloc_run_head (calls : list (option cstr * Z)) (st : tun_state) :
  exists rest, tun_alloc_run calls st = st :: rest.
Proof.
  destruct calls as [| [dev flags] calls]; simpl; eexists; reflexivity.
Qed.

(** Once on the legacy path, always on the legacy path. *)
Lemma tun_alloc_run_retried (calls : list (option cstr * Z)) :
  forall st, retried st = true ->
  Forall (fun st' => retried st' = true /\ tun_dev st' = tun_dev st)
         (tun_alloc_run calls st).
Proof.
  induction calls as [| [dev flags] calls IH]; intros st Hr; simpl.
  - constructor; auto.
  - constructor; [auto |].
    destruct (tun_alloc_statics dev flags st) as [[H1 H2] | [H1 _]];
      [| congruence].
    cbv zeta in H1, H2.
    rewrite <- H2. apply IH. congruence.
Qed.

Lemma switches_retried (calls : list (option cstr * Z)) :
  forall st, retried st = true -> switches (tun_alloc_run calls st) = 0.
Proof.
  induction calls as [| [dev flags] calls IH]; intros st Hr; [reflexivity |].
  destruct (tun_alloc_statics dev flags st) as [[H1 H2] | [H1 _]];
    [| congruence].
  cbv zeta in H1, H2. simpl.
  destruct (tun_alloc_run_head calls (snd (tun_alloc dev flags st)))
    as [rest Hrest].
  specialize (IH (snd (tun_alloc dev flags st))).
  rewrite Hrest in *.
  destruct (list_eq_dec ascii_dec (tun_dev st)
              (tun_dev (snd (tun_alloc dev flags st)))) as [_ | Hne];
    [| congruence].
  simpl. apply IH. congruence.
Qed.

Lemma switches_le_1 (calls : list (option cstr * Z)) :
  forall st, switches (tun_alloc_run calls st) <= 1.
Proof.
  induction calls as [| [dev flags] calls IH]; intros st; [simpl; lia |].
  destruct (retried st) eqn:Hr.
  - rewrite switches_retried by assumption. lia.
  - simpl.
    destruct (tun_alloc_run_head calls (snd (tun_alloc dev flags st)))
      as [rest Hrest].
    pose proof (IH (snd (tun_alloc dev flags st))) as IH1.
    pose proof (switches_retried calls (snd (tun_alloc dev flags st))) as IH2.
    rewrite Hrest in *.
    destruct (list_eq_dec ascii_dec (tun_dev st)
                (tun_dev (snd (tun_alloc dev flags st)))) as [_ | Hne].
    + simpl. exact IH1.
    + destruct (tun_alloc_statics dev flags st) as [[H1 H2] | [_ [H1 _]]].
      * cbv zeta in H2. congruence.
      * cbv zeta in H1. rewrite (IH2 H1). lia.
Qed.

Lemma tun_alloc_run_consistent (calls : list (option cstr * Z)) :
  forall st, tun_consistent st -> Forall tun_consistent (tun_alloc_run calls st).
Proof.
  induction calls as [| [dev flags] calls IH]; intros st Hc; simpl.
  - constructor; auto.
  - constructor; [assumption |]. apply IH. apply tun_alloc_consistent, Hc.
Qed.

(** C6: for every flags value, [tun_alloc] called with an empty interface
    name returns [-EINVAL] (that is -22) and leaves the state as it was:
    nothing is added to the history, so no device-control node was opened,
    and the statics are untouched. *)
Theorem tun_alloc_empty_name (flags : Z) (st : tun_state) :
  tun_alloc (Some []) flags st = ((- EINVAL)%Z, st) /\
  tun_events (snd (tun_alloc (Some []) flags st)) = tun_events st /\
  (- EINVAL = -22)%Z.
Proof.
  rewrite tun_alloc_eq. simpl. auto.
Qed.

(** C4: over every sequence of [tun_alloc] calls of a process started in
    [tun_init], the control-node path changes at most once; in every state
    reached, the path is the primary one exactly until the fallback; once it
    is the legacy one it stays so in every later state; a call with a
    non-empty name switches exactly when the open of the primary node fails
    with ENOENT and no fallback was taken before, and then the result is
    that of one full allocation on the legacy path; in every other case the
    call is a single attempt on the current path, the statics stay, and a
    failed open is returned as it is; a call with an empty name returns
    [-EINVAL] and changes nothing. *)
Theorem tun_alloc_fallback_once (calls : list (option cstr * Z)) :
  let sts := tun_alloc_run calls tun_init in
  switches sts <= 1 /\
  Forall (fun st =>
    tun_consistent st /\
    (retried st = true ->
     forall more,
       Forall (fun st' => retried st' = true /\ tun_dev st' = lit "/dev/tun")
              (tun_alloc_run more st)) /\
    (forall dev flags,
       dev_is_empty dev = true ->
       tun_alloc dev flags st = ((- EINVAL)%Z, st)) /\
    (forall dev flags fd err,
       dev_is_empty dev = false ->
       sys_open (tun_events st) (tun_dev st) = (fd, err) ->
       let st1 := tun_log st (EvOpen (tun_dev st) fd err) in
       let res := tun_alloc dev flags st in
       if (fd <? 0)%Z && negb (retried st) && (err =? ENOENT)%Z
       then tun_dev st = lit "/dev/net/tun" /\
            res = tun_attempt dev flags (tun_fallback st1) /\
            retried (tun_fallback st1) = true /\
            tun_dev (tun_fallback st1) = lit "/dev/tun" /\
            retried (snd res) = true /\
            tun_dev (snd res) = lit "/dev/tun"
       else res = tun_attempt dev flags st /\
            retried (snd res) = retried st /\
            tun_dev (snd res) = tun_dev st /\
            ((fd <? 0)%Z = true -> res = (fd, st1))))
    sts.
Proof.
  cbv zeta. split; [apply switches_le_1 |].
  assert (Hinit : tun_consistent tun_init) by reflexivity.
  pose proof (tun_alloc_run_consistent calls tun_init Hinit) as Hall.
  eapply Forall_impl; [| exact Hall].
  intros st Hc. split; [assumption |]. split; [| split].
  - intros Hr more.
    pose proof (tun_alloc_run_retried more st Hr) as Hm.
    eapply Forall_impl; [| exact Hm].
    intros st' [H1 H2]. split; [assumption |].
    rewrite H2. unfold tun_consistent in Hc. rewrite Hr in Hc. exact Hc.
  - intros dev flags Hdev. rewrite tun_alloc_eq, Hdev. reflexivity.
  - intros dev flags fd err Hdev Hopen.
    pose proof (tun_alloc_cases dev flags st) as Hcase.
    rewrite Hopen in Hcase. cbv zeta in Hcase. rewrite Hdev in Hcase.
    simpl negb in Hcase. rewrite andb_true_l in Hcase.
    destruct ((fd <? 0)%Z && negb (retried st) && (err =? ENOENT)%Z) eqn:Hsw.
    + apply andb_true_iff in Hsw. destruct Hsw as [Hsw _].
      apply andb_true_iff in Hsw. destruct Hsw as [_ Hr].
      apply negb_true_iff in Hr.
      assert (Hfb : retried (tun_fallback
                       (tun_log st (EvOpen (tun_dev st) fd err))) = true)
        by (simpl; rewrite Hr; reflexivity).
      rewrite Hcase.
      destruct (tun_attempt_statics dev flags
                  (tun_fallback (tun_log st (EvOpen (tun_dev st) fd err))))
        as [H1 H2].
      rewrite H1, H2.
      unfold tun_consistent in Hc. rewrite Hr in Hc.
      repeat split; auto.
    + rewrite Hcase.
      destruct (tun_attempt_statics dev flags st) as [H1 H2].
      repeat split; auto.
      intros Hneg. unfold tun_attempt. rewrite Hdev, Hopen, Hneg. reflexivity.
Qed.

Lemma tun_bind_events (fd : Z) (ifr : ifreq) (st : tun_state) :
  let ret := sys_ioctl (tun_events st) fd TUNSETIFF ifr in
  tun_events (snd (tun_bind fd ifr st)) =
    tun_events st ++
    EvIoctl fd TUNSETIFF ifr ret :: (if (ret <? 0)%Z then [EvClose fd] else [])
  /\ fst (tun_bind fd ifr st) = (if (ret <? 0)%Z then ret else fd).
Proof.
  cbv zeta. unfold tun_bind.
  destruct (sys_ioctl (tun_events st) fd TUNSETIFF ifr <? 0)%Z; simpl;
    rewrite <- ?app_assoc; auto.
Qed.

(** The events of a single attempt: none, a failed open, or a successful
    open followed by the bind (and the close when the bind fails). *)
Lemma tun_attempt_events (dev : option cstr) (flags : Z) (st : tun_state) :
  let ifr := {| ifr_name := strncpy (dev_text dev) (IFNAMSIZ - 1);
                ifr_flags := to_short flags |} in
  let res := tun_attempt dev flags st in
  exists evs, tun_events (snd res) = tun_events st ++ evs /\
  ((dev_is_empty dev = true /\ evs = []) \/
   (dev_is_empty dev = false /\
    exists fd err, (fd < 0)%Z /\ evs = [EvOpen (tun_dev st) fd err]) \/
   (dev_is_empty dev = false /\
    exists fd err ret, (0 <= fd)%Z /\
      evs = EvOpen (tun_dev st) fd err :: EvIoctl fd TUNSETIFF ifr ret ::
            (if (ret <? 0)%Z then [EvClose fd] else []) /\
      fst res = (if (ret <? 0)%Z then ret else fd))).
Proof.
  cbv zeta. unfold tun_attempt.
  destruct (dev_is_empty dev).
  { exists []. rewrite app_nil_r. auto. }
  destruct (sys_open (tun_events st) (tun_dev st)) as [fd err].
  destruct (fd <? 0)%Z eqn:Hfd.
  { exists [EvOpen (tun_dev st) fd err]. split; [reflexivity |].
    apply Z.ltb_lt in Hfd.
    right; left. split; [reflexivity |].
    exists fd, err. split; [lia | reflexivity]. }
  apply Z.ltb_ge in Hfd.
  match goal with
  | |- context [tun_bind ?f ?i ?s] =>
      destruct (tun_bind_events f i s) as [He Hr]; cbv zeta in He, Hr
  end.
  eexists. split.
  - rewrite He. simpl. rewrite <- app_assoc. reflexivity.
  - right; right. split; [reflexivity |].
    exists fd, err. eexists. split; [lia |].
    split; [reflexivity |].
    exact Hr.
Qed.

Lemma open_fds_app (l1 l2 : list event) (acc : list Z) :
  open_fds_from acc (l1 ++ l2) = open_fds_from (open_fds_from acc l1) l2.
Proof.
  revert acc. induction l1 as [| e l1 IH]; intros acc; [reflexivity |].
  destruct e; simpl; apply IH.
Qed.

Lemma tun_attempt_bind_failure (dev : option cstr) (flags : Z) (st : tun_state)
  (pre post : list event) (fd req : Z) (ifr : ifreq) (ret : Z) :
  tun_events (snd (tun_attempt dev flags st)) =
    tun_events st ++ pre ++ EvIoctl fd req ifr ret :: post ->
  (ret < 0)%Z ->
  fst (tun_attempt dev flags st) = ret /\
  post = [EvClose fd] /\
  (exists path err, pre = [EvOpen path fd err] /\ (0 <= fd)%Z).
Proof.
  intros Hev Hret.
  destruct (tun_attempt_events dev flags st) as [evs [He Hshape]].
  cbv zeta in He, Hshape. rewrite He in Hev. apply app_inv_head in Hev.
  destruct Hshape as [[_ ->] | [[_ [fd' [err' [_ ->]]]]
                              | [_ [fd' [err' [ret' [Hfd [-> Hres]]]]]]]].
  - destruct pre; discriminate.
  - destruct pre as [| e [| e' pre]]; discriminate.
  - destruct pre as [| e [| e' pre]].
    + discriminate.
    + simpl in Hev. injection Hev as He1 Hfd' Hreq Hifr Hret' Hpost.
      subst. rewrite Hres.
      assert (Hlt : (ret <? 0)%Z = true) by (apply Z.ltb_lt; assumption).
      rewrite Hlt. repeat split; eauto.
    + simpl in Hev. injection Hev as _ _ Hev.
      destruct (ret' <? 0)%Z;
        destruct pre as [| e1 [| e2 pre]]; discriminate.
Qed.

Lemma open_fds_attempt_failure (old : list event) (path : cstr)
  (fd err req : Z) (ifr : ifreq) (ret : Z) :
  (0 <= fd)%Z ->
  open_fds (old ++ [EvOpen path fd err] ++
            EvIoctl fd req ifr ret :: [EvClose fd]) = open_fds old.
Proof.
  intros Hfd. unfold open_fds. rewrite open_fds_app. simpl.
  assert (Hge : (fd <? 0)%Z = false) by (apply Z.ltb_ge; assumption).
  rewrite Hge. simpl. rewrite Z.eqb_refl. reflexivity.
Qed.

(** C7: whenever a [tun_alloc] call made the TUNSETIFF request and the
    kernel refused it (negative return), the call returns that negative
    value, the request is the last thing but one the call did, the last
    being the close of the very descriptor, which the open just before had
    returned; the history leaves open exactly the descriptors that were open
    before the call. *)
Theorem tun_alloc_bind_failure_closes (dev : option cstr) (flags : Z)
  (st : tun_state) (pre post : list event) (fd req : Z) (ifr : ifreq)
  (ret : Z) :
  tun_events (snd (tun_alloc dev flags st)) =
    tun_events st ++ pre ++ EvIoctl fd req ifr ret :: post ->
  (ret < 0)%Z ->
  fst (tun_alloc dev flags st) = ret /\
  post = [EvClose fd] /\
  (exists pre' path err, pre = pre' ++ [EvOpen path fd err] /\ (0 <= fd)%Z) /\
  open_fds (tun_events (snd (tun_alloc dev flags st))) =
    open_fds (tun_events st).
Proof.
  intros Hev Hret.
  pose proof (tun_alloc_cases dev flags st) as Hcase.
  destruct (sys_open (tun_events st) (tun_dev st)) as [fd0 err0].
  cbv zeta in Hcase.
  destruct (negb (dev_is_empty dev) && (fd0 <? 0)%Z && negb (retried st)
            && (err0 =? ENOENT)%Z) eqn:Hsw;
    rewrite Hcase in *.
  - apply andb_true_iff in Hsw. destruct Hsw as [Hsw _].
    apply andb_true_iff in Hsw. destruct Hsw as [Hsw _].
    apply andb_true_iff in Hsw. destruct Hsw as [_ Hneg].
    apply Z.ltb_lt in Hneg.
    set (s1 := tun_fallback (tun_log st (EvOpen (tun_dev st) fd0 err0))) in *.
    destruct (tun_attempt_events dev flags s1) as [evs [He _]].
    cbv zeta in He.
    assert (Hs1 : tun_events s1 = tun_events st ++ [EvOpen (tun_dev st) fd0 err0])
      by reflexivity.
    assert (Hpre : exists pre1, pre = EvOpen (tun_dev st) fd0 err0 :: pre1).
    { rewrite He, Hs1, <- app_assoc in Hev. apply app_inv_head in Hev.
      destruct pre as [| e pre]; [discriminate |].
      simpl in Hev. injection Hev as <- _. eauto. }
    destruct Hpre as [pre1 ->].
    assert (Hev1 : tun_events (snd (tun_attempt dev flags s1)) =
                   tun_events s1 ++ pre1 ++ EvIoctl fd req ifr ret :: post).
    { rewrite Hev, Hs1, <- app_assoc. reflexivity. }
    destruct (tun_attempt_bind_failure dev flags s1 pre1 post fd req ifr ret
                Hev1 Hret)
      as [Hr [Hp [path [err [Hpre1 Hfd]]]]].
    subst pre1 post. repeat split; auto.
    + exists [EvOpen (tun_dev st) fd0 err0], path, err. auto.
    + rewrite Hev.
      change (EvOpen (tun_dev st) fd0 err0 :: [EvOpen path fd err])
        with ([EvOpen (tun_dev st) fd0 err0] ++ [EvOpen path fd err]).
      rewrite <- app_assoc, app_assoc.
      rewrite open_fds_attempt_failure by assumption.
      unfold open_fds. rewrite open_fds_app. simpl.
      assert (Hlt : (fd0 <? 0)%Z = true) by (apply Z.ltb_lt; assumption).
      rewrite Hlt. reflexivity.
  - destruct (tun_attempt_bind_failure dev flags st pre post fd req ifr ret
                Hev Hret)
      as [Hr [Hp [path [err [Hpre1 Hfd]]]]].
    subst pre post. repeat split; auto.
    + exists [], path, err. auto.
    + rewrite Hev. apply open_fds_attempt_failure. assumption.
Qed.

(** The requests a single attempt makes carry the name cut to
    [IFNAMSIZ - 1] characters and the flags. *)
Lemma tun_attempt_requests (dev : option cstr) (flags : Z) (st : tun_state) :
  exists evs,
    tun_events (snd (tun_attempt dev flags st)) = tun_events st ++ evs /\
    (dev_is_empty dev = false ->
     exists fd err rest, evs = EvOpen (tun_dev st) fd err :: rest) /\
    (forall fd req ifr ret, In (EvIoctl fd req ifr ret) evs ->
       req = TUNSETIFF /\
       ifr = {| ifr_name := strncpy (dev_text dev) (IFNAMSIZ - 1);
                ifr_flags := to_short flags |}).
Proof.
  destruct (tun_attempt_events dev flags st) as [evs [He Hshape]].
  cbv zeta in He, Hshape. exists evs. split; [exact He |].
  destruct Hshape as [[Hd ->] | [[Hd [fd [err [_ ->]]]]
                                | [Hd [fd [err [ret [_ [-> _]]]]]]]].
  - split; [congruence |]. intros ? ? ? ? [].
  - split; [eauto |].
    intros ? ? ? ? [Hin | []]. discriminate.
  - split; [eauto |].
    intros fd1 req1 ifr1 ret1 [Hin | [Hin | Hin]].
    + discriminate.
    + injection Hin as _ <- <- _. auto.
    + destruct (ret <? 0)%Z; [destruct Hin as [Hin | []]; discriminate |].
      destruct Hin.
Qed.

Lemma tun_alloc_requests (dev : option cstr) (flags : Z) (st : tun_state) :
  exists evs,
    tun_events (snd (tun_alloc dev flags st)) = tun_events st ++ evs /\
    (dev_is_empty dev = false ->
     exists fd err rest, evs = EvOpen (tun_dev st) fd err :: rest) /\
    (forall fd req ifr ret, In (EvIoctl fd req ifr ret) evs ->
       req = TUNSETIFF /\
       ifr = {| ifr_name := strncpy (dev_text dev) (IFNAMSIZ - 1);
                ifr_flags := to_short flags |}).
Proof.
  pose proof (tun_alloc_cases dev flags st) as Hcase.
  destruct (sys_open (tun_events st) (tun_dev st)) as [fd0 err0].
  cbv zeta in Hcase. rewrite Hcase.
  destruct (negb (dev_is_empty dev) && (fd0 <? 0)%Z && negb (retried st)
            && (err0 =? ENOENT)%Z).
  - destruct (tun_attempt_requests dev flags
                (tun_fallback (tun_log st (EvOpen (tun_dev st) fd0 err0))))
      as [evs [He [_ Hio]]].
    exists (EvOpen (tun_dev st) fd0 err0 :: evs). split.
    + rewrite He. simpl. rewrite <- app_assoc. reflexivity.
    + split; [eauto |].
      intros fd req ifr ret [Hin | Hin]; [discriminate | eauto].
  - apply tun_attempt_requests.
Qed.

Lemma tun_attempt_ext (d1 d2 : option cstr) (flags : Z) (st : tun_state) :
  dev_is_empty d1 = dev_is_empty d2 ->
  strncpy (dev_text d1) (IFNAMSIZ - 1) = strncpy (dev_text d2) (IFNAMSIZ - 1) ->
  tun_attempt d1 flags st = tun_attempt d2 flags st.
Proof.
  intros He Hn. unfold tun_attempt. rewrite He, Hn. reflexivity.
Qed.

Lemma tun_alloc_ext (d1 d2 : option cstr) (flags : Z) (st : tun_state) :
  dev_is_empty d1 = dev_is_empty d2 ->
  strncpy (dev_text d1) (IFNAMSIZ - 1) = strncpy (dev_text d2) (IFNAMSIZ - 1) ->
  tun_alloc d1 flags st = tun_alloc d2 flags st.
Proof.
  intros He Hn.
  pose proof (tun_alloc_cases d1 flags st) as H1.
  pose proof (tun_alloc_cases d2 flags st) as H2.
  destruct (sys_open (tun_events st) (tun_dev st)) as [fd err].
  cbv zeta in H1, H2. rewrite H1, H2, He.
  destruct (negb (dev_is_empty d2) && (fd <? 0)%Z && negb (retried st)
            && (err =? ENOENT)%Z);
    apply tun_attempt_ext; assumption.
Qed.

(** C8 (as the code has it): an interface name longer than
    [IFNAMSIZ - 1] = 15 characters is not refused. The call goes on to open
    the control node, behaves in every respect as the call with the first
    15 characters of the name, and every TUNSETIFF request it makes carries
    exactly those 15 characters as [ifr_name]. *)
Theorem tun_alloc_long_name_truncated (name : cstr) (flags : Z)
  (st : tun_state) :
  IFNAMSIZ - 1 < length name ->
  tun_alloc (Some name) flags st =
    tun_alloc (Some (firstn (IFNAMSIZ - 1) name)) flags st /\
  exists evs,
    tun_events (snd (tun_alloc (Some name) flags st)) = tun_events st ++ evs /\
    (exists fd err rest, evs = EvOpen (tun_dev st) fd err :: rest) /\
    (forall fd req ifr ret, In (EvIoctl fd req ifr ret) evs ->
       ifr_name ifr = firstn (IFNAMSIZ - 1) name /\
       length (ifr_name ifr) = IFNAMSIZ - 1).
Proof.
  intros Hlen.
  assert (Hne : dev_is_empty (Some name) = false).
  { destruct name; [simpl in Hlen; lia | reflexivity]. }
  split.
  - apply tun_alloc_ext.
    + rewrite Hne. destruct name as [| c name]; [simpl in Hlen; lia |].
      reflexivity.
    + cbn [dev_text]. unfold strncpy. symmetry.
      rewrite firstn_firstn, Nat.min_id. reflexivity.
  - destruct (tun_alloc_requests (Some name) flags st) as [evs [He [Ho Hio]]].
    exists evs. split; [exact He |]. split; [auto |].
    intros fd req ifr ret Hin.
    destruct (Hio fd req ifr ret Hin) as [_ ->]. cbn [ifr_name dev_text].
    unfold strncpy. split; [reflexivity |].
    rewrite length_firstn. unfold IFNAMSIZ in *. lia.
Qed.

(** ** Decimal numerals of octets *)

Lemma forall_below_spec (n : nat) (P : N -> bool) :
  forall_below n P = true ->
  forall x, (x < N.of_nat n)%N -> P x = true.
Proof.
  induction n as [| k IH]; intros Hall x Hx; [lia |].
  simpl in Hall. apply andb_true_iff in Hall. destruct Hall as [Hk Hrest].
  destruct (N.eq_dec x (N.of_nat k)) as [-> | Hne]; [exact Hk |].
  apply IH; [exact Hrest | lia].
Qed.

Lemma cstr_eqb_eq (s t : cstr) : cstr_eqb s t = true -> s = t.
Proof.
  unfold cstr_eqb. destruct (list_eq_dec ascii_dec s t); [auto | discriminate].
Qed.

Lemma utoa_octet_length (n : N) :
  (n <= 255)%N -> 1 <= length (utoa n) <= 3.
Proof.
  intros Hn.
  assert (Hall : forall_below 256
            (fun k => (1 <=? length (utoa k)) && (length (utoa k) <=? 3))
          = true) by (vm_compute; reflexivity).
  pose proof (forall_below_spec _ _ Hall n) as H.
  cbv beta in H. rewrite andb_true_iff, Nat.leb_le, Nat.leb_le in H.
  apply H. lia.
Qed.

Lemma is_digit_val (ch : ascii) :
  is_digit ch = true -> (digit_val ch < 10)%N /\ utoa (digit_val ch) = [ch].
Proof.
  intros Hd.
  assert (Hall : forall_below 256
            (fun k => negb (is_digit (ascii_of_N k)) ||
                      ((digit_val (ascii_of_N k) <? 10)%N &&
                       cstr_eqb (utoa (digit_val (ascii_of_N k)))
                                [ascii_of_N k]))
          = true) by (vm_compute; reflexivity).
  pose proof (forall_below_spec _ _ Hall (N_of_ascii ch)) as H.
  cbv beta in H. rewrite ascii_N_embedding in H. rewrite Hd in H.
  simpl in H. specialize (H (N_ascii_bounded ch)).
  apply andb_true_iff in H. destruct H as [H1 H2].
  apply N.ltb_lt in H1. apply cstr_eqb_eq in H2. auto.
Qed.

(** One more digit behind a numeral without leading zero. *)
Lemma utoa_snoc (c d : N) :
  (0 < c)%N -> (d < 10)%N -> (c * 10 + d <= 255)%N ->
  utoa (c * 10 + d) = utoa c ++ utoa d.
Proof.
  intros Hc Hd Hle.
  assert (Hall : forall_below 26 (fun c =>
            (c =? 0)%N ||
            forall_below 10 (fun d =>
              (255 <? c * 10 + d)%N ||
              cstr_eqb (utoa (c * 10 + d)) (utoa c ++ utoa d)))
          = true) by (vm_compute; reflexivity).
  pose proof (forall_below_spec _ _ Hall c) as H1. cbv beta in H1.
  assert (Hc0 : (c =? 0)%N = false) by (apply N.eqb_neq; lia).
  rewrite Hc0, orb_false_l in H1.
  assert (Hc26 : (c < N.of_nat 26)%N) by lia.
  pose proof (forall_below_spec _ _ (H1 Hc26) d) as H2. cbv beta in H2.
  assert (Hgt : (255 <? c * 10 + d)%N = false) by (apply N.ltb_ge; lia).
  rewrite Hgt, orb_false_l in H2.
  apply cstr_eqb_eq, H2. lia.
Qed.

(** ** [inet_pton] and [inet_ntop] *)

Lemma pton_step_text (st st' : pton_state) (ch : ascii) :
  pton_inv st -> pton_step st ch = Some st' ->
  pton_text st' = pton_text st ++ [ch] /\ pton_inv st'.
Proof.
  intros (Hlen & Hoct & Hcur & Hzero & Hdone) Hstep.
  unfold pton_step in Hstep.
  destruct (is_digit ch) eqn:Hdig.
  - destruct (is_digit_val ch Hdig) as [Hlt Hutoa].
    cbv zeta in Hstep.
    destruct (saw_digit st) eqn:Hsaw.
    + destruct (tmp_cur st =? 0)%N eqn:Hz; [discriminate |].
      apply N.eqb_neq in Hz. simpl in Hstep.
      destruct (255 <? tmp_cur st * 10 + digit_val ch)%N eqn:Hbig;
        [discriminate |].
      apply N.ltb_ge in Hbig.
      injection Hstep as <-. unfold pton_text, pton_inv. simpl.
      rewrite Hsaw. split.
      * rewrite utoa_snoc by lia. rewrite Hutoa, app_assoc. reflexivity.
      * repeat split; auto. discriminate.
    + simpl in Hstep. rewrite (Hzero eq_refl) in *. simpl in Hstep.
      destruct (255 <? digit_val ch)%N eqn:Hbig; [discriminate |].
      destruct (4 <? S (octets st)) eqn:H4; [discriminate |].
      apply Nat.ltb_ge in H4. apply N.ltb_ge in Hbig.
      injection Hstep as <-. unfold pton_text, pton_inv. simpl.
      rewrite Hsaw, Hutoa. split; [rewrite app_nil_r; reflexivity |].
      repeat split; auto; lia.
  - destruct (Ascii.eqb ch "."%char) eqn:Hdot; [| discriminate].
    apply Ascii.eqb_eq in Hdot. subst ch.
    destruct (saw_digit st) eqn:Hsaw; [| discriminate]. simpl in Hstep.
    destruct (octets st =? 4) eqn:H4; [discriminate |].
    apply Nat.eqb_neq in H4.
    injection Hstep as <-. unfold pton_text, pton_inv. simpl.
    rewrite Hsaw. split.
    + rewrite flat_map_app. simpl. rewrite !app_nil_r, <- app_assoc.
      reflexivity.
    + rewrite length_app. simpl. repeat split; auto; try lia.
      apply Forall_app. split; [assumption |]. constructor; auto.
Qed.

Lemma pton_scan_text (src : cstr) :
  forall st st', pton_inv st -> pton_scan st src = Some st' ->
  pton_text st' = pton_text st ++ src /\ pton_inv st'.
Proof.
  induction src as [| ch rest IH]; intros st st' Hinv Hscan; simpl in Hscan.
  - injection Hscan as <-. rewrite app_nil_r. auto.
  - destruct (pton_step st ch) as [st1 |] eqn:Hstep; [| discriminate].
    destruct (pton_step_text st st1 ch Hinv Hstep) as [Ht1 Hinv1].
    destruct (IH st1 st' Hinv1 Hscan) as [Ht Hinv'].
    split; [| exact Hinv'].
    rewrite Ht, Ht1, <- app_assoc. reflexivity.
Qed.

Lemma pton_init_inv : pton_inv pton_init.
Proof.
  unfold pton_inv, pton_init. simpl. repeat split; auto; lia.
Qed.

(** What [inet_pton] accepts is the text of the octets it answers. *)
Lemma inet_pton_dotted (src : cstr) (a : in_addr) :
  inet_pton src = Some a -> dotted a = src /\ in_addr_ok a.
Proof.
  unfold inet_pton. intros H.
  destruct (pton_scan pton_init src) as [st |] eqn:Hscan; [| discriminate].
  destruct (pton_scan_text src pton_init st pton_init_inv Hscan)
    as [Htext (Hlen & Hoct & Hcur & Hzero & Hdone)].
  destruct (octets st <? 4) eqn:H4; [discriminate |].
  apply Nat.ltb_ge in H4.
  destruct st as [saw n done cur]. simpl in *.
  destruct done as [| o0 [| o1 [| o2 [| o3 done]]]]; simpl in H;
    try discriminate.
  - injection H as <-.
    destruct saw; [| simpl in Hlen; lia].
    unfold pton_text in Htext. simpl in Htext.
    rewrite <- Htext. unfold dotted. simpl.
    inversion Hdone as [| ? ? Ho0 Hd1]; subst.
    inversion Hd1 as [| ? ? Ho1 Hd2]; subst.
    inversion Hd2 as [| ? ? Ho2 Hd3]; subst.
    split.
    + rewrite <- !app_assoc. reflexivity.
    + unfold in_addr_ok. simpl. auto.
  - destruct done; discriminate.
Qed.

Lemma dotted_length (a : in_addr) :
  in_addr_ok a -> 7 <= length (dotted a) <= 15.
Proof.
  intros (H0 & H1 & H2 & H3). unfold dotted.
  rewrite !length_app. simpl.
  pose proof (utoa_octet_length _ H0).
  pose proof (utoa_octet_length _ H1).
  pose proof (utoa_octet_length _ H2).
  pose proof (utoa_octet_length _ H3).
  lia.
Qed.

(** ** Bytes of a host integer *)

Lemma byte_at_div_mod (v k : N) :
  byte_at v k = ((v / 2 ^ (8 * k)) mod 2 ^ 8)%N.
Proof.
  unfold byte_at. rewrite N.shiftr_div_pow2.
  change 255%N with (N.ones 8). apply N.land_ones.
Qed.

Lemma byte_at_le (v k : N) : (byte_at v k <= 255)%N.
Proof.
  rewrite byte_at_div_mod.
  pose proof (N.mod_upper_bound (v / 2 ^ (8 * k)) (2 ^ 8)) as H.
  change (2 ^ 8)%N with 256%N in *. lia.
Qed.

Lemma byte_at_land (x y k : N) :
  byte_at (N.land x y) k = N.land (byte_at x k) (byte_at y k).
Proof.
  unfold byte_at. rewrite N.shiftr_land.
  apply N.bits_inj. intros i. rewrite !N.land_spec.
  destruct (N.testbit (N.shiftr x (8 * k)) i),
           (N.testbit (N.shiftr y (8 * k)) i),
           (N.testbit 255 i); reflexivity.
Qed.

Lemma byte_at_lor (x y k : N) :
  byte_at (N.lor x y) k = N.lor (byte_at x k) (byte_at y k).
Proof.
  unfold byte_at. rewrite N.shiftr_lor. apply N.land_lor_distr_l.
Qed.

Lemma byte_at_lxor (x y k : N) :
  byte_at (N.lxor x y) k = N.lxor (byte_at x k) (byte_at y k).
Proof.
  unfold byte_at. rewrite N.shiftr_lxor.
  apply N.bits_inj. intros i. rewrite !N.lxor_spec, !N.land_spec, !N.lxor_spec.
  destruct (N.testbit (N.shiftr x (8 * k)) i),
           (N.testbit (N.shiftr y (8 * k)) i),
           (N.testbit 255 i); reflexivity.
Qed.

(** The complement of a 32-bit integer, byte by byte. *)
Lemma byte_at_lnot32 (x k : N) :
  (k < 4)%N -> byte_at (N.lnot x 32) k = N.lnot (byte_at x k) 8.
Proof.
  intros Hk. unfold N.lnot. rewrite byte_at_lxor. f_equal.
  assert (Hcases : k = 0%N \/ k = 1%N \/ k = 2%N \/ k = 3%N) by lia.
  destruct Hcases as [-> | [-> | [-> | ->]]]; reflexivity.
Qed.

Lemma be32_store_ok (v : N) : in_addr_ok (be32_store host v).
Proof.
  unfold in_addr_ok, be32_store.
  destruct host; cbn [oc0 oc1 oc2 oc3]; repeat split; apply byte_at_le.
Qed.

Lemma be32_store_land (x y : N) :
  be32_store host (N.land x y) =
  in_addr_and (be32_store host x) (be32_store host y).
Proof.
  unfold be32_store, in_addr_and.
  destruct host; cbn [oc0 oc1 oc2 oc3]; rewrite !byte_at_land; reflexivity.
Qed.

Lemma be32_store_lor_lnot (n m : N) :
  be32_store host (N.lor n (N.lnot m 32)) =
  in_addr_or_not (be32_store host n) (be32_store host m).
Proof.
  unfold be32_store, in_addr_or_not.
  destruct host; cbn [oc0 oc1 oc2 oc3];
    rewrite !byte_at_lor, !byte_at_lnot32 by lia; reflexivity.
Qed.

Lemma be32_load_octets (b0 b1 b2 b3 : N) :
  (b0 <= 255 -> b1 <= 255 -> b2 <= 255 -> b3 <= 255 ->
   let v := b0 + 2 ^ 8 * b1 + 2 ^ 16 * b2 + 2 ^ 24 * b3 in
   byte_at v 0 = b0 /\ byte_at v 1 = b1 /\ byte_at v 2 = b2 /\
   byte_at v 3 = b3 /\ v < 2 ^ 32)%N.
Proof.
  intros H0 H1 H2 H3. cbv zeta. rewrite !byte_at_div_mod.
  change (2 ^ (8 * 0))%N with 1%N. change (2 ^ (8 * 1))%N with 256%N.
  change (2 ^ (8 * 2))%N with 65536%N. change (2 ^ (8 * 3))%N with 16777216%N.
  change (2 ^ 8)%N with 256%N. change (2 ^ 16)%N with 65536%N.
  change (2 ^ 24)%N with 16777216%N. change (2 ^ 32)%N with 4294967296%N.
  rewrite N.div_1_r.
  repeat split.
  - symmetry. apply (N.mod_unique _ _ (b1 + 256 * b2 + 65536 * b3)); lia.
  - replace (b0 + 256 * b1 + 65536 * b2 + 16777216 * b3)%N
      with (b0 + (b1 + 256 * b2 + 65536 * b3) * 256)%N by lia.
    rewrite N.div_add by lia. rewrite (N.div_small b0) by lia.
    symmetry. apply (N.mod_unique _ _ (b2 + 256 * b3)); lia.
  - replace (b0 + 256 * b1 + 65536 * b2 + 16777216 * b3)%N
      with (b0 + 256 * b1 + (b2 + 256 * b3) * 65536)%N by lia.
    rewrite N.div_add by lia. rewrite (N.div_small (b0 + 256 * b1)) by lia.
    symmetry. apply (N.mod_unique _ _ b3); lia.
  - replace (b0 + 256 * b1 + 65536 * b2 + 16777216 * b3)%N
      with (b0 + 256 * b1 + 65536 * b2 + b3 * 16777216)%N by lia.
    rewrite N.div_add by lia.
    rewrite (N.div_small (b0 + 256 * b1 + 65536 * b2)) by lia.
    apply N.mod_small. lia.
  - lia.
Qed.

Lemma be32_store_load (a : in_addr) :
  in_addr_ok a -> be32_store host (be32_load host a) = a.
Proof.
  intros (H0 & H1 & H2 & H3). destruct a as [a0 a1 a2 a3]. simpl in *.
  unfold be32_store, be32_load. destruct host; simpl oc0; simpl oc1;
    simpl oc2; simpl oc3.
  - destruct (be32_load_octets a0 a1 a2 a3 H0 H1 H2 H3)
      as (E0 & E1 & E2 & E3 & _).
    cbv zeta in *. rewrite E0, E1, E2, E3. reflexivity.
  - destruct (be32_load_octets a3 a2 a1 a0 H3 H2 H1 H0)
      as (E0 & E1 & E2 & E3 & _).
    cbv zeta in *. rewrite E0, E1, E2, E3. reflexivity.
Qed.

Lemma be32_load_lt (a : in_addr) :
  in_addr_ok a -> (be32_load host a < 2 ^ 32)%N.
Proof.
  intros (H0 & H1 & H2 & H3). destruct a as [a0 a1 a2 a3]. simpl in *.
  unfold be32_load. destruct host; simpl oc0; simpl oc1; simpl oc2; simpl oc3.
  - apply (be32_load_octets a0 a1 a2 a3 H0 H1 H2 H3).
  - apply (be32_load_octets a3 a2 a1 a0 H3 H2 H1 H0).
Qed.

(** ** The prefix-length loop *)

(** [cidr_loop] is the loop of the source: it stops on zero, and otherwise
    counts one and goes on with the value shifted right by one. *)
Lemma cidr_loop_unfold (tmp cidr : N) :
  cidr_loop tmp cidr =
  if (tmp =? 0)%N then cidr else cidr_loop (N.shiftr tmp 1) (u8 (cidr + 1)).
Proof.
  destruct tmp as [| [p | p |]]; reflexivity.
Qed.

Lemma cidr_loop_pos_size (p : positive) (c : N) :
  (c + N.pos (Pos.size p) < 2 ^ 8)%N ->
  cidr_loop_pos p c = (c + N.pos (Pos.size p))%N.
Proof.
  revert c. induction p as [p IH | p IH |]; intros c Hc; simpl in *.
  - rewrite IH; unfold u8; rewrite N.mod_small by lia; lia.
  - rewrite IH; unfold u8; rewrite N.mod_small by lia; lia.
  - unfold u8. rewrite N.mod_small by lia. lia.
Qed.

(** On a 32-bit value the loop yields the length of the binary numeral, the
    position of the highest set bit: not the number of set bits. *)
Lemma cidr_loop_size (tmp : N) :
  (tmp < 2 ^ 32)%N -> cidr_loop tmp 0 = N.size tmp /\ (N.size tmp <= 32)%N.
Proof.
  intros Hlt.
  assert (Hsz : (N.size tmp <= 32)%N).
  { destruct (N.eq_dec tmp 0) as [-> | Hne]; [simpl; lia |].
    rewrite N.size_log2 by assumption.
    assert (N.log2 tmp < 32)%N by (apply N.log2_lt_pow2; lia).
    lia. }
  split; [| exact Hsz].
  destruct tmp as [| p]; [reflexivity |].
  simpl in *. rewrite cidr_loop_pos_size; [reflexivity |].
  change (2 ^ 8)%N with 256%N. lia.
Qed.

Lemma utoa_cidr_length (c : N) : (c <= 32)%N -> 1 <= length (utoa c) <= 2.
Proof.
  intros Hc.
  assert (Hall : forall_below 33
            (fun k => (1 <=? length (utoa k)) && (length (utoa k) <=? 2))
          = true) by (vm_compute; reflexivity).
  pose proof (forall_below_spec _ _ Hall c) as H.
  cbv beta in H. rewrite andb_true_iff, Nat.leb_le, Nat.leb_le in H.
  apply H. lia.
Qed.

(** ** [derive_addresses] *)

Lemma strncpy_length (s : cstr) (n : nat) : length (strncpy s n) <= n.
Proof.
  unfold strncpy. rewrite length_firstn. lia.
Qed.

Lemma strncpy_short (s : cstr) (n : nat) : length s <= n -> strncpy s n = s.
Proof.
  intros H. unfold strncpy. apply firstn_all2. exact H.
Qed.

Lemma snprintf_short (size : nat) (s : cstr) :
  length s + 1 <= size -> snprintf size s = s.
Proof.
  intros H. unfold snprintf. apply firstn_all2. lia.
Qed.

(** Appending [/<cidr>] to a string that [strnlen] measures in full. *)
Lemma snprintf_at_cidr (buf : cstr) (c : N) (r : cstr) :
  length buf <= IPV4SAFE -> (c <= 32)%N ->
  snprintf_at IPV4SAFE buf (strnlen buf IPV4SAFE) IPV4SAFE
              (lit "/" ++ utoa c) = Ok r ->
  r = buf ++ lit "/" ++ utoa c /\ length r + 1 <= IPV4SAFE.
Proof.
  intros Hbuf Hc. unfold snprintf_at, strnlen.
  rewrite Nat.min_l by exact Hbuf.
  pose proof (utoa_cidr_length c Hc) as Hlen.
  rewrite snprintf_short
    by (rewrite length_app; simpl; unfold IPV4SAFE; lia).
  destruct (length buf + length (lit "/" ++ utoa c) + 1 <=? IPV4SAFE)
    eqn:Hfit; [| discriminate].
  apply Nat.leb_le in Hfit.
  intros H. injection H as <-. rewrite firstn_all.
  split; [reflexivity |]. rewrite length_app.
  rewrite length_app in Hfit. simpl length in *. lia.
Qed.

Lemma snprintf_at_cidr_fits (buf : cstr) (c : N) :
  (c <= 32)%N -> length buf + length (utoa c) + 2 <= IPV4SAFE ->
  snprintf_at IPV4SAFE buf (strnlen buf IPV4SAFE) IPV4SAFE
              (lit "/" ++ utoa c) = Ok (buf ++ lit "/" ++ utoa c).
Proof.
  intros Hc Hfit. unfold snprintf_at, strnlen.
  rewrite Nat.min_l by lia.
  pose proof (utoa_cidr_length c Hc) as Hlen.
  rewrite snprintf_short
    by (rewrite length_app; simpl; unfold IPV4SAFE; lia).
  rewrite firstn_all.
  assert (Hle : (length buf + length (lit "/" ++ utoa c) + 1 <=? IPV4SAFE)
                = true).
  { apply Nat.leb_le. rewrite length_app. simpl. lia. }
  rewrite Hle. reflexivity.
Qed.

Lemma inet_ntop_fits (a : in_addr) :
  in_addr_ok a -> inet_ntop a IPV4SAFE = Some (dotted a).
Proof.
  intros Hok. unfold inet_ntop.
  pose proof (dotted_length a Hok) as Hlen.
  assert (Hle : (IPV4SAFE <=? length (dotted a)) = false)
    by (apply Nat.leb_gt; unfold IPV4SAFE; lia).
  cbv zeta. rewrite Hle. reflexivity.
Qed.

(** Whatever [derive_addresses] hands on was computed from the texts as the
    source says: the two buffers parse, the prefix length is the count of
    the loop, the network address is the octet-wise AND of address and mask
    and the broadcast address its OR with the complemented mask. *)
Lemma derive_addresses_inv (iface : srv_iface_cfg) (d : addressing) :
  derive_addresses iface = Ok (Some d) ->
  exists a m,
    inet_pton (strncpy (ipv4 iface) (IPV4SAFE - 1)) = Some a /\
    inet_pton (strncpy (ipv4_netmask iface) (IPV4SAFE - 1)) = Some m /\
    cidr d = cidr_loop (be32_load host m) 0 /\
    (cidr d <= 32)%N /\
    u_ipv4 d = strncpy (ipv4 iface) (IPV4SAFE - 1) ++ lit "/" ++ utoa (cidr d) /\
    b_ipv4_network d = N.land (be32_load host a) (be32_load host m) /\
    b_ipv4_broadcast d =
      N.lor (b_ipv4_network d) (N.lnot (be32_load host m) 32) /\
    u_ipv4_network d = dotted (in_addr_and a m) ++ lit "/" ++ utoa (cidr d) /\
    u_ipv4_broadcast d = dotted (in_addr_or_not (in_addr_and a m) m).
Proof.
  unfold derive_addresses. intros H.
  destruct (inet_pton (strncpy (ipv4_netmask iface) (IPV4SAFE - 1)))
    as [m |] eqn:Hm; [| discriminate].
  cbv zeta in H.
  destruct (32 <? cidr_loop (be32_load host m) 0)%N eqn:Hc; [discriminate |].
  apply N.ltb_ge in Hc.
  destruct (inet_pton (strncpy (ipv4 iface) (IPV4SAFE - 1)))
    as [a |] eqn:Ha; [| discriminate].
  destruct (inet_pton_dotted _ _ Ha) as [Hta Hoka].
  destruct (inet_pton_dotted _ _ Hm) as [Htm Hokm].
  pose proof (strncpy_length (ipv4 iface) (IPV4SAFE - 1)) as Hlen.
  destruct (snprintf_at IPV4SAFE (strncpy (ipv4 iface) (IPV4SAFE - 1)) _ _ _)
    as [u1 |] eqn:Hu1; [| discriminate].
  apply snprintf_at_cidr in Hu1; [| lia | exact Hc].
  destruct Hu1 as [Hu1 _]. simpl in H.
  rewrite be32_store_land, !be32_store_load in H by assumption.
  assert (Hokn : in_addr_ok (in_addr_and a m)).
  { rewrite <- (be32_store_load a Hoka), <- (be32_store_load m Hokm).
    rewrite <- be32_store_land. apply be32_store_ok. }
  rewrite (inet_ntop_fits _ Hokn) in H.
  pose proof (dotted_length _ Hokn) as Hlenn.
  destruct (snprintf_at IPV4SAFE (dotted (in_addr_and a m)) _ _ _)
    as [u2 |] eqn:Hu2; [| discriminate].
  apply snprintf_at_cidr in Hu2; [| unfold IPV4SAFE; lia | exact Hc].
  destruct Hu2 as [Hu2 _]. simpl in H.
  rewrite be32_store_lor_lnot, be32_store_land, !be32_store_load in H
    by assumption.
  assert (Hokb : in_addr_ok (in_addr_or_not (in_addr_and a m) m)).
  { rewrite <- (be32_store_load m Hokm) at 2.
    rewrite <- (be32_store_load _ Hokn).
    rewrite <- be32_store_lor_lnot. apply be32_store_ok. }
  rewrite (inet_ntop_fits _ Hokb) in H.
  injection H as <-. simpl.
  exists a, m. repeat split; auto.
Qed.

(** [derive_addresses] succeeds on two dotted-quads as soon as the buffers
    have room for the prefix length behind the address. *)
Lemma derive_addresses_spec (iface : srv_iface_cfg) (a m : in_addr) :
  inet_pton (ipv4 iface) = Some a ->
  inet_pton (ipv4_netmask iface) = Some m ->
  let c := cidr_loop (be32_load host m) 0 in
  length (dotted a) + length (utoa c) + 2 <= IPV4SAFE ->
  length (dotted (in_addr_and a m)) + length (utoa c) + 2 <= IPV4SAFE ->
  derive_addresses iface =
  Ok (Some {| cidr := c;
              u_ipv4 := ipv4 iface ++ lit "/" ++ utoa c;
              b_ipv4_network := N.land (be32_load host a) (be32_load host m);
              b_ipv4_broadcast :=
                N.lor (N.land (be32_load host a) (be32_load host m))
                      (N.lnot (be32_load host m) 32);
              u_ipv4_network := dotted (in_addr_and a m) ++ lit "/" ++ utoa c;
              u_ipv4_broadcast :=
                dotted (in_addr_or_not (in_addr_and a m) m) |}).
Proof.
  intros Ha Hm c Hfit1 Hfit2.
  destruct (inet_pton_dotted _ _ Ha) as [Hta Hoka].
  destruct (inet_pton_dotted _ _ Hm) as [Htm Hokm].
  pose proof (dotted_length a Hoka) as Hla.
  pose proof (dotted_length m Hokm) as Hlm.
  destruct (cidr_loop_size (be32_load host m) (be32_load_lt m Hokm))
    as [Hsize Hc32].
  assert (Hc : (c <= 32)%N) by (unfold c; rewrite Hsize; exact Hc32).
  unfold derive_addresses.
  rewrite (strncpy_short (ipv4 iface)), (strncpy_short (ipv4_netmask iface))
    by (rewrite <- ?Hta, <- ?Htm; unfold IPV4SAFE; lia).
  rewrite Hm. cbv zeta. fold c.
  assert (Hnb : (32 <? c)%N = false) by (apply N.ltb_ge; exact Hc).
  rewrite Hnb, Ha.
  rewrite snprintf_at_cidr_fits by (rewrite <- ?Hta; auto).
  cbv beta iota delta [bind].
  rewrite be32_store_land, !be32_store_load by assumption.
  assert (Hokn : in_addr_ok (in_addr_and a m)).
  { rewrite <- (be32_store_load a Hoka), <- (be32_store_load m Hokm).
    rewrite <- be32_store_land. apply be32_store_ok. }
  rewrite (inet_ntop_fits _ Hokn).
  rewrite snprintf_at_cidr_fits by auto.
  cbv beta iota delta [bind].
  rewrite be32_store_lor_lnot, be32_store_land, !be32_store_load
    by assumption.
  assert (Hokb : in_addr_ok (in_addr_or_not (in_addr_and a m) m)).
  { rewrite <- (be32_store_load m Hokm) at 2.
    rewrite <- (be32_store_load _ Hokn).
    rewrite <- be32_store_lor_lnot. apply be32_store_ok. }
  rewrite (inet_ntop_fits _ Hokb). reflexivity.
Qed.

(** ** A bound on the length of any decimal numeral *)

Lemma string_of_uint_length (d : Decimal.uint) :
  length (list_ascii_of_string (NilEmpty.string_of_uint d)) =
  Decimal.nb_digits d.
Proof.
  induction d; simpl; congruence.
Qed.

Lemma nb_digits_double (d : Decimal.uint) :
  Decimal.nb_digits (Decimal.Little.double d) <= S (Decimal.nb_digits d) /\
  Decimal.nb_digits (Decimal.Little.succ_double d) <= S (Decimal.nb_digits d).
Proof.
  induction d as [| d [IH1 IH2] | d [IH1 IH2] | d [IH1 IH2] | d [IH1 IH2]
                 | d [IH1 IH2] | d [IH1 IH2] | d [IH1 IH2] | d [IH1 IH2]
                 | d [IH1 IH2] | d [IH1 IH2]];
    simpl; split; lia.
Qed.

Lemma nb_digits_to_little_uint (p : positive) :
  (N.of_nat (Decimal.nb_digits (Pos.to_little_uint p)) <= N.pos (Pos.size p))%N.
Proof.
  induction p as [p IH | p IH |]; simpl.
  - pose proof (nb_digits_double (Pos.to_little_uint p)) as [_ H]. lia.
  - pose proof (nb_digits_double (Pos.to_little_uint p)) as [H _]. lia.
  - lia.
Qed.

(** A numeral has at most as many decimal digits as binary ones. *)
Lemma utoa_length (n : N) : (N.of_nat (length (utoa n)) <= N.max 1 (N.size n))%N.
Proof.
  unfold utoa. destruct n as [| p]; [simpl; lia |].
  unfold N.to_uint, NilZero.string_of_uint.
  pose proof (nb_digits_to_little_uint p) as Hp.
  assert (Hlen : length (list_ascii_of_string
                           (NilEmpty.string_of_uint (Pos.to_uint p))) =
                 Decimal.nb_digits (Pos.to_little_uint p)).
  { rewrite string_of_uint_length. unfold Pos.to_uint.
    apply DecimalFacts.nb_digits_rev. }
  destruct (Pos.to_uint p) eqn:Hd;
    try (rewrite Hlen; simpl N.size; lia).
  exfalso. revert Hd. apply DecimalPos.Unsigned.to_uint_nonnil.
Qed.

Lemma utoa_u16_length (n : N) : length (utoa (u16 n)) <= 16.
Proof.
  pose proof (utoa_length (u16 n)) as H.
  assert (Hlt : (u16 n < 2 ^ 16)%N).
  { unfold u16. apply N.mod_upper_bound. discriminate. }
  assert (Hsz : (N.size (u16 n) <= 16)%N).
  { destruct (N.eq_dec (u16 n) 0) as [-> | Hne]; [simpl; lia |].
    rewrite N.size_log2 by assumption.
    assert (N.log2 (u16 n) < 16)%N by (apply N.log2_lt_pow2; lia).
    lia. }
  lia.
Qed.

(** C9: a text that [inet_pton] accepts is given back by [inet_ntop], both
    from the octets themselves and from the 32-bit integer the program keeps
    them in, whenever the output buffer has the 16 bytes a dotted-quad may
    need. *)
Theorem inet_pton_ntop_roundtrip (src : cstr) (a : in_addr) (size : nat) :
  inet_pton src = Some a ->
  16 <= size ->
  inet_ntop a size = Some src /\
  inet_ntop (be32_store host (be32_load host a)) size = Some src.
Proof.
  intros Hp Hsize.
  destruct (inet_pton_dotted src a Hp) as [Htext Hok].
  rewrite be32_store_load by exact Hok.
  assert (H : inet_ntop a size = Some src).
  { unfold inet_ntop. cbv zeta.
    pose proof (dotted_length a Hok) as Hlen.
    assert (Hle : (size <=? length (dotted a)) = false)
      by (apply Nat.leb_gt; lia).
    rewrite Hle, Htext. reflexivity. }
  split; exact H.
Qed.

(** ** [raise_up_iface] *)

Lemma store_str_inv (cap : nat) (s r : cstr) :
  store_str cap s = Ok r -> r = s /\ length s + 1 <= cap.
Proof.
  unfold store_str. destruct (length s + 1 <=? cap) eqn:H; [| discriminate].
  apply Nat.leb_le in H. intros E. injection E as <-. auto.
Qed.

(** The ways through [raise_up_iface] that end in a [return]. *)
Lemma raise_up_iface_inv (w : world) (r : bool) (w' : world) :
  raise_up_iface w = Ok (r, w') ->
  (derive_addresses (w_iface w) = Ok None /\ r = false /\ w' = w) \/
  exists d,
    derive_addresses (w_iface w) = Ok (Some d) /\
    let e_dev := escapeshellarg (dev (w_iface w)) in
    let e_ipv4 := escapeshellarg (u_ipv4 d) in
    let e_ipv4_broadcast := escapeshellarg (u_ipv4_broadcast d) in
    length e_dev + 1 <= 32 /\
    length e_ipv4 + 1 <= IPV4SAFE /\
    length e_ipv4_broadcast + 1 <= IPV4SAFE /\
    let cmd1 := snprintf 1024 (link_up_text e_dev (u16 (mtu (w_iface w)))) in
    let ret1 := sys_system (w_events w) cmd1 in
    let evs1 := w_events w ++ [EvSystem cmd1 ret1] in
    let cmd2 :=
      snprintf 1024 (addr_add_text e_dev e_ipv4 e_ipv4_broadcast) in
    let ret2 := sys_system evs1 cmd2 in
    if (ret1 <? 0)%Z
    then r = false /\ w' = {| w_iface := w_iface w; w_events := evs1 |}
    else r = negb (ret2 <? 0)%Z /\
         w' = {| w_iface := w_iface w;
                 w_events := evs1 ++ [EvSystem cmd2 ret2] |}.
Proof.
  unfold raise_up_iface. cbv zeta. intros H.
  destruct (derive_addresses (w_iface w)) as [[d |] |] eqn:Hd;
    cbv beta iota delta [bind] in H; [| | discriminate].
  2: { injection H as <- <-. left. auto. }
  right. exists d. split; [reflexivity |].
  unfold simple_esc_arg in H.
  destruct (store_str IPV4SAFE (escapeshellarg (u_ipv4_network d)))
    as [e_net |] eqn:Hnet; [| discriminate].
  destruct (store_str IPV4SAFE (escapeshellarg (u_ipv4_broadcast d)))
    as [e_bc |] eqn:Hbc; [| discriminate].
  destruct (store_str 32 (escapeshellarg (dev (w_iface w))))
    as [e_dev |] eqn:Hdev; [| discriminate].
  destruct (store_str IPV4SAFE (escapeshellarg (u_ipv4 d)))
    as [e_ip |] eqn:Hip; [| discriminate].
  apply store_str_inv in Hbc, Hdev, Hip.
  destruct Hbc as [-> Hbc], Hdev as [-> Hdev], Hip as [-> Hip].
  cbv zeta. repeat (split; [assumption |]).
  unfold EXEC_CMD in H. cbv beta iota zeta in H.
  destruct (sys_system (w_events w)
              (snprintf 1024
                 (link_up_text (escapeshellarg (dev (w_iface w)))
                    (u16 (mtu (w_iface w))))) <? 0)%Z.
  - injection H as <- <-. auto.
  - cbn [w_events w_iface] in H.
    destruct (sys_system _ _ <? 0)%Z; injection H as <- <-; auto.
Qed.

Lemma link_up_text_length (e_dev : cstr) (m : N) :
  length e_dev + 1 <= 32 ->
  length (link_up_text e_dev (u16 m)) + 1 <= 1024.
Proof.
  intros H. unfold link_up_text. rewrite !length_app.
  pose proof (utoa_u16_length m). simpl length. lia.
Qed.

Lemma addr_add_text_length (e_dev e_ipv4 e_bc : cstr) :
  IPV4LEN <= 464 ->
  length e_dev + 1 <= 32 ->
  length e_ipv4 + 1 <= IPV4SAFE ->
  length e_bc + 1 <= IPV4SAFE ->
  length (addr_add_text e_dev e_ipv4 e_bc) + 1 <= 1024.
Proof.
  intros HL H1 H2 H3. unfold addr_add_text. rewrite !length_app.
  unfold IPV4SAFE in *. simpl length. lia.
Qed.

(** X17: every command [raise_up_iface] runs is one of its two formats filled
    with nothing but escaped texts (and the decimal MTU): the interface name,
    the address with its [/<cidr>] suffix and the broadcast address (the
    dotted-quad of network OR NOT netmask) each enter through
    [escapeshellarg], whole and unaltered, and nothing else of the
    configuration enters the command. This holds for every run that
    returns, with [IPV4LEN] at most 464, so that [buf[1024]] holds the
    longest command in full. *)
Theorem raise_up_iface_commands_escaped (w : world) (r : bool) (w' : world) :
  IPV4LEN <= 464 ->
  raise_up_iface w = Ok (r, w') ->
  exists evs,
    w_events w' = w_events w ++ evs /\
    forall ev, In ev evs ->
      exists d a m ret,
        derive_addresses (w_iface w) = Ok (Some d) /\
        inet_pton (strncpy (ipv4 (w_iface w)) (IPV4SAFE - 1)) = Some a /\
        inet_pton (strncpy (ipv4_netmask (w_iface w)) (IPV4SAFE - 1))
          = Some m /\
        u_ipv4 d = strncpy (ipv4 (w_iface w)) (IPV4SAFE - 1) ++
                   lit "/" ++ utoa (cidr d) /\
        u_ipv4_broadcast d = dotted (in_addr_or_not (in_addr_and a m) m) /\
        (ev = EvSystem
                (lit "/sbin/ip link set dev " ++
                 escapeshellarg (dev (w_iface w)) ++
                 lit " up mtu " ++ utoa (u16 (mtu (w_iface w)))) ret \/
         ev = EvSystem
                (lit "/sbin/ip addr add dev " ++
                 escapeshellarg (dev (w_iface w)) ++ lit " " ++
                 escapeshellarg (u_ipv4 d) ++ lit " broadcast " ++
                 escapeshellarg (u_ipv4_broadcast d)) ret).
Proof.
  intros HL Hrun.
  destruct (raise_up_iface_inv w r w' Hrun)
    as [(_ & _ & ->) | (d & Hd & Hrest)].
  { exists []. rewrite app_nil_r. split; [reflexivity |]. intros ev []. }
  cbv zeta in Hrest. destruct Hrest as (Hdev & Hip & Hbc & Hrest).
  destruct (derive_addresses_inv _ _ Hd)
    as (a & m & Ha & Hm & _ & _ & Hu & _ & _ & _ & Hb).
  rewrite (snprintf_short 1024 (link_up_text _ _)) in Hrest
    by (apply link_up_text_length; assumption).
  rewrite (snprintf_short 1024 (addr_add_text _ _ _)) in Hrest
    by (apply addr_add_text_length; assumption).
  unfold link_up_text, addr_add_text in Hrest.
  destruct (sys_system (w_events w) _ <? 0)%Z.
  - destruct Hrest as [_ ->]. eexists. split; [reflexivity |].
    intros ev [<- | []]. exists d, a, m. eexists. repeat split; eauto.
  - destruct Hrest as [_ ->]. eexists. split.
    + cbn [w_events]. rewrite <- app_assoc. reflexivity.
    + intros ev [<- | [<- | []]]; exists d, a, m; eexists;
        repeat split; eauto.
Qed.

(** C5: when the first command [raise_up_iface] runs (the link-up command
    with the MTU) answers a negative status, the function returns [false]
    and that command is the only one it ran. *)
Theorem raise_up_iface_stops_at_failed_link_up (w : world) (r : bool)
  (w' : world) (cmd : cstr) (ret : Z) (rest : list event) :
  raise_up_iface w = Ok (r, w') ->
  w_events w' = w_events w ++ EvSystem cmd ret :: rest ->
  (ret < 0)%Z ->
  r = false /\ rest = [] /\
  cmd = snprintf 1024
          (link_up_text (escapeshellarg (dev (w_iface w)))
                        (u16 (mtu (w_iface w)))).
Proof.
  intros Hrun Hev Hret.
  destruct (raise_up_iface_inv w r w' Hrun)
    as [(_ & _ & ->) | (d & Hd & Hrest)].
  { rewrite <- (app_nil_r (w_events w)) in Hev at 1.
    apply app_inv_head in Hev. discriminate. }
  cbv zeta in Hrest. destruct Hrest as (_ & _ & _ & Hrest).
  destruct (sys_system (w_events w) _ <? 0)%Z eqn:Hneg.
  - destruct Hrest as [-> ->]. cbn [w_events] in Hev.
    apply app_inv_head in Hev. injection Hev as <- _ <-. auto.
  - destruct Hrest as [_ ->]. cbn [w_events] in Hev.
    rewrite <- app_assoc in Hev. apply app_inv_head in Hev.
    injection Hev as <- <- _. apply Z.ltb_ge in Hneg. lia.
Qed.


(** X1: the prefix length [raise_up_iface] derives from a netmask that parses
    is the length of the binary numeral of the host integer, and so lies
    between 0 and 32: the guard [cidr > 32] never fires. *)
Theorem netmask_prefix_in_range (netmask : cstr) (m : in_addr) :
  inet_pton netmask = Some m ->
  cidr_loop (be32_load host m) 0 = N.size (be32_load host m) /\
  (0 <= cidr_loop (be32_load host m) 0 <= 32)%N.
Proof.
  intros Hm. destruct (inet_pton_dotted _ _ Hm) as [_ Hok].
  destruct (cidr_loop_size (be32_load host m) (be32_load_lt m Hok))
    as [Hsize Hle].
  rewrite Hsize. split; [reflexivity | lia].
Qed.

(** X2: the escaped interface name goes into [e_dev[32]] with no bound: once the
    addresses are derived, a name whose escaped form has more than 31
    characters makes the run end in a buffer overrun. *)
Theorem raise_up_iface_overruns_e_dev (w : world) (d : addressing) :
  derive_addresses (w_iface w) = Ok (Some d) ->
  31 < length (escapeshellarg (dev (w_iface w))) ->
  raise_up_iface w = Overrun.
Proof.
  intros Hd Hlen. unfold raise_up_iface. cbv zeta. rewrite Hd.
  cbv beta iota delta [bind]. unfold simple_esc_arg.
  destruct (store_str IPV4SAFE (escapeshellarg (u_ipv4_network d)));
    [| reflexivity].
  destruct (store_str IPV4SAFE (escapeshellarg (u_ipv4_broadcast d)));
    [| reflexivity].
  unfold store_str at 1.
  assert (Hcap : (length (escapeshellarg (dev (w_iface w))) + 1 <=? 32)
                 = false) by (apply Nat.leb_gt; lia).
  rewrite Hcap. reflexivity.
Qed.

(** * Further properties *)

(** ** Descriptors and requests of [tun_alloc] *)

Lemma open_fds_snoc_failed_open (old : list event) (path : cstr)
  (fd err : Z) :
  (fd < 0)%Z -> open_fds (old ++ [EvOpen path fd err]) = open_fds old.
Proof.
  intros Hfd. unfold open_fds. rewrite open_fds_app. simpl.
  assert (Hlt : (fd <? 0)%Z = true) by (apply Z.ltb_lt; assumption).
  rewrite Hlt. reflexivity.
Qed.

Lemma tun_attempt_accounting (dev : option cstr) (flags : Z) (st : tun_state) :
  let res := tun_attempt dev flags st in
  open_fds (tun_events (snd res)) =
  if (fst res <? 0)%Z then open_fds (tun_events st)
  else fst res :: open_fds (tun_events st).
Proof.
  cbv zeta. unfold tun_attempt.
  destruct (dev_is_empty dev); [reflexivity |].
  destruct (sys_open (tun_events st) (tun_dev st)) as [fd err].
  destruct (fd <? 0)%Z eqn:Hfd.
  - cbn [fst snd]. rewrite Hfd. cbn [tun_log tun_events].
    apply open_fds_snoc_failed_open. apply Z.ltb_lt. exact Hfd.
  - unfold tun_bind. cbv zeta.
    destruct (sys_ioctl _ fd TUNSETIFF _ <? 0)%Z eqn:Hret; cbn [fst snd].
    + rewrite Hret. cbn [tun_log tun_events].
      rewrite <- !app_assoc. cbn [app].
      apply (open_fds_attempt_failure (tun_events st)).
      apply Z.ltb_ge. exact Hfd.
    + rewrite Hfd. cbn [tun_log tun_events].
      rewrite <- !app_assoc. cbn [app].
      unfold open_fds. rewrite open_fds_app. simpl. rewrite Hfd. reflexivity.
Qed.

Lemma tun_alloc_open_fds (dev : option cstr) (flags : Z) (st : tun_state) :
  open_fds (tun_events (snd (tun_alloc dev flags st))) =
  if (fst (tun_alloc dev flags st) <? 0)%Z then open_fds (tun_events st)
  else fst (tun_alloc dev flags st) :: open_fds (tun_events st).
Proof.
  pose proof (tun_alloc_cases dev flags st) as Hcase.
  destruct (sys_open (tun_events st) (tun_dev st)) as [fd0 err0].
  cbv zeta in Hcase. rewrite Hcase.
  destruct (negb (dev_is_empty dev) && (fd0 <? 0)%Z && negb (retried st)
            && (err0 =? ENOENT)%Z) eqn:Hsw.
  - apply andb_true_iff in Hsw. destruct Hsw as [Hsw _].
    apply andb_true_iff in Hsw. destruct Hsw as [Hsw _].
    apply andb_true_iff in Hsw. destruct Hsw as [_ Hneg].
    apply Z.ltb_lt in Hneg.
    pose proof (tun_attempt_accounting dev flags
                  (tun_fallback (tun_log st (EvOpen (tun_dev st) fd0 err0))))
      as Hacc.
    cbv zeta in Hacc. rewrite Hacc. cbn [tun_fallback tun_log tun_events].
    rewrite (open_fds_snoc_failed_open _ _ _ _ Hneg). reflexivity.
  - apply tun_attempt_accounting.
Qed.

(** X3: a call of [tun_alloc] that returns a negative value leaves open
    exactly the descriptors that were open before it, whatever the path of
    failure; a call that returns a non-negative value leaves open, besides
    those, exactly the descriptor it returns. *)
Theorem tun_alloc_descriptor_accounting (dev : option cstr) (flags : Z)
  (st : tun_state) :
  let res := tun_alloc dev flags st in
  open_fds (tun_events (snd res)) =
  if (fst res <? 0)%Z then open_fds (tun_events st)
  else fst res :: open_fds (tun_events st).
Proof.
  cbv zeta. apply tun_alloc_open_fds.
Qed.

Lemma to_short_id (z : Z) :
  (- 2 ^ 15 <= z < 2 ^ 15)%Z -> to_short z = z.
Proof.
  intros Hz. unfold to_short.
  change (2 ^ 15)%Z with 32768%Z in *. change (2 ^ 16)%Z with 65536%Z.
  rewrite Z.mod_small by lia. lia.
Qed.

Lemma tun_attempt_success (dev : option cstr) (flags : Z) (st : tun_state) :
  (0 <= fst (tun_attempt dev flags st))%Z ->
  exists err ret,
    tun_events (snd (tun_attempt dev flags st)) =
      tun_events st ++
      [EvOpen (tun_dev st) (fst (tun_attempt dev flags st)) err;
       EvIoctl (fst (tun_attempt dev flags st)) TUNSETIFF
         {| ifr_name := strncpy (dev_text dev) (IFNAMSIZ - 1);
            ifr_flags := to_short flags |} ret] /\
    (0 <= ret)%Z /\ dev_is_empty dev = false.
Proof.
  intros Hok.
  destruct (tun_attempt_events dev flags st) as [evs [He Hshape]].
  cbv zeta in He, Hshape.
  unfold tun_attempt in Hok |- *.
  destruct (dev_is_empty dev) eqn:Hdev.
  { exfalso. simpl in Hok. unfold EINVAL in Hok. lia. }
  destruct (sys_open (tun_events st) (tun_dev st)) as [fd err].
  destruct (fd <? 0)%Z eqn:Hfd.
  { exfalso. apply Z.ltb_lt in Hfd. simpl in Hok. lia. }
  unfold tun_bind in Hok |- *. cbv zeta in Hok |- *.
  destruct (sys_ioctl _ fd TUNSETIFF _ <? 0)%Z eqn:Hret.
  { exfalso. apply Z.ltb_lt in Hret. cbn [fst] in Hok. lia. }
  cbn [fst snd tun_log tun_events]. apply Z.ltb_ge in Hret.
  do 2 eexists. split; [| split; [exact Hret | reflexivity]].
  rewrite <- app_assoc. reflexivity.
Qed.

(** X4: when [tun_alloc] succeeds (returns a non-negative value) for a name
    of at most 15 characters and flags that fit a [short], the value is the
    descriptor of the last open of the call, and the last thing the call did
    is a TUNSETIFF request on that descriptor, accepted by the kernel,
    carrying exactly the name and the flags asked for; before that open the
    call did nothing, or it met ENOENT on the primary node and went to
    [/dev/tun]. *)
Theorem tun_alloc_success_binds_name (name : cstr) (flags : Z)
  (st : tun_state) :
  (0 <= fst (tun_alloc (Some name) flags st))%Z ->
  length name <= IFNAMSIZ - 1 ->
  (- 2 ^ 15 <= flags < 2 ^ 15)%Z ->
  let fd := fst (tun_alloc (Some name) flags st) in
  exists pre path err ret,
    tun_events (snd (tun_alloc (Some name) flags st)) =
      tun_events st ++ pre ++
      [EvOpen path fd err;
       EvIoctl fd TUNSETIFF {| ifr_name := name; ifr_flags := flags |} ret] /\
    (0 <= ret)%Z /\
    name <> [] /\
    ((pre = [] /\ path = tun_dev st) \/
     (exists fd0, pre = [EvOpen (tun_dev st) fd0 ENOENT] /\ (fd0 < 0)%Z /\
                  retried st = false /\ path = lit "/dev/tun")).
Proof.
  intros Hok Hlen Hflags. cbv zeta.
  pose proof (tun_alloc_cases (Some name) flags st) as Hcase.
  destruct (sys_open (tun_events st) (tun_dev st)) as [fd0 err0].
  cbv zeta in Hcase. rewrite Hcase in *. clear Hcase.
  destruct (negb (dev_is_empty (Some name)) && (fd0 <? 0)%Z
            && negb (retried st) && (err0 =? ENOENT)%Z) eqn:Hsw.
  - apply andb_true_iff in Hsw. destruct Hsw as [Hsw Herr].
    apply andb_true_iff in Hsw. destruct Hsw as [Hsw Hr].
    apply andb_true_iff in Hsw. destruct Hsw as [_ Hneg].
    apply Z.ltb_lt in Hneg. apply Z.eqb_eq in Herr.
    apply negb_true_iff in Hr. subst err0.
    destruct (tun_attempt_success _ _ _ Hok) as (err & ret & He & Hret & Hd).
    exists [EvOpen (tun_dev st) fd0 ENOENT], (lit "/dev/tun"), err, ret.
    rewrite He. cbn [tun_fallback tun_log tun_events tun_dev dev_text].
    rewrite (strncpy_short name) by exact Hlen.
    rewrite to_short_id by exact Hflags.
    rewrite <- app_assoc. repeat split; auto.
    + intros ->. discriminate.
    + right. exists fd0. auto.
  - destruct (tun_attempt_success _ _ _ Hok) as (err & ret & He & Hret & Hd).
    exists [], (tun_dev st), err, ret.
    rewrite He. cbn [dev_text app].
    rewrite (strncpy_short name) by exact Hlen.
    rewrite to_short_id by exact Hflags.
    repeat split; auto.
    intros ->. discriminate.
Qed.

(** X5: a call of [tun_alloc] does a bounded amount of work: it adds at most
    four events to the history, of which at most two are opens, and the
    self-call is never taken twice: with the fallback behind it the call is
    a single attempt, and a call that takes the fallback ends in a state
    where it is behind. *)
Theorem tun_alloc_bounded_work (dev : option cstr) (flags : Z)
  (st : tun_state) :
  exists evs,
    tun_events (snd (tun_alloc dev flags st)) = tun_events st ++ evs /\
    length evs <= 4 /\
    length (filter is_open evs) <= 2 /\
    (retried st = true -> length evs <= 3 /\ length (filter is_open evs) <= 1).
Proof.
  assert (Hatt : forall s,
    exists evs,
      tun_events (snd (tun_attempt dev flags s)) = tun_events s ++ evs /\
      length evs <= 3 /\ length (filter is_open evs) <= 1).
  { intros s. destruct (tun_attempt_events dev flags s) as [evs [He Hshape]].
    cbv zeta in He, Hshape. exists evs. split; [exact He |].
    destruct Hshape as [[_ ->] | [[_ [fd [err [_ ->]]]]
                                  | [_ [fd [err [ret [_ [-> _]]]]]]]].
    - simpl. lia.
    - simpl. lia.
    - destruct (ret <? 0)%Z; simpl; lia. }
  pose proof (tun_alloc_cases dev flags st) as Hcase.
  destruct (sys_open (tun_events st) (tun_dev st)) as [fd0 err0].
  cbv zeta in Hcase. rewrite Hcase.
  destruct (negb (dev_is_empty dev) && (fd0 <? 0)%Z && negb (retried st)
            && (err0 =? ENOENT)%Z) eqn:Hsw.
  - apply andb_true_iff in Hsw. destruct Hsw as [Hsw _].
    apply andb_true_iff in Hsw. destruct Hsw as [_ Hr].
    apply negb_true_iff in Hr.
    destruct (Hatt (tun_fallback (tun_log st (EvOpen (tun_dev st) fd0 err0))))
      as (evs & He & H3 & H1).
    exists (EvOpen (tun_dev st) fd0 err0 :: evs).
    rewrite He. cbn [tun_fallback tun_log tun_events].
    rewrite <- app_assoc. split; [reflexivity |].
    simpl. split; [lia |]. split; [lia |]. congruence.
  - destruct (Hatt st) as (evs & He & H3 & H1).
    exists evs. repeat split; auto; lia.
Qed.

(** X6: [tun_alloc] sees of a name only its first 15 characters: two
    non-empty names that agree on them give the same call, with the same
    result, the same requests and the same state afterwards. *)
Theorem tun_alloc_names_collide (n1 n2 : cstr) (flags : Z) (st : tun_state) :
  n1 <> [] -> n2 <> [] ->
  firstn (IFNAMSIZ - 1) n1 = firstn (IFNAMSIZ - 1) n2 ->
  tun_alloc (Some n1) flags st = tun_alloc (Some n2) flags st.
Proof.
  intros H1 H2 Heq. apply tun_alloc_ext.
  - destruct n1, n2; try reflexivity; congruence.
  - exact Heq.
Qed.

(** ** [tun_set_queue] together with [tun_alloc] *)

Lemma tun_step_statics (op : tun_op) (st : tun_state) :
  let st' := snd (tun_step op st) in
  (retried st' = retried st /\ tun_dev st' = tun_dev st) \/
  (retried st = false /\ retried st' = true /\ tun_dev st' = lit "/dev/tun").
Proof.
  destruct op as [dev flags | fd enable].
  - apply tun_alloc_statics.
  - left. split; reflexivity.
Qed.

Lemma tun_run_head (ops : list tun_op) (st : tun_state) :
  exists rest, tun_run ops st = st :: rest.
Proof.
  destruct ops; simpl; eexists; reflexivity.
Qed.

Lemma tun_run_switches_retried (ops : list tun_op) :
  forall st, retried st = true ->
  switches (tun_run ops st) = 0 /\
  Forall (fun st' => retried st' = true /\ tun_dev st' = tun_dev st)
         (tun_run ops st).
Proof.
  induction ops as [| op ops IH]; intros st Hr.
  - simpl. split; [reflexivity |]. constructor; auto.
  - destruct (tun_step_statics op st) as [[H1 H2] | [H1 _]]; [| congruence].
    cbv zeta in H1, H2.
    assert (Hr' : retried (snd (tun_step op st)) = true) by congruence.
    destruct (IH _ Hr') as [IHs IHf].
    destruct (tun_run_head ops (snd (tun_step op st))) as [rest Hrest].
    cbn [tun_run]. split.
    + cbn [switches]. rewrite Hrest in *.
      destruct (list_eq_dec ascii_dec (tun_dev st)
                  (tun_dev (snd (tun_step op st)))) as [_ | Hne];
        [| congruence].
      exact IHs.
    + constructor; [auto |]. rewrite <- H2. exact IHf.
Qed.

(** X7: [tun_set_queue] never touches the fallback: over every sequence of
    [tun_alloc] and [tun_set_queue] calls from the initial state, in any
    order and with any arguments, the control-node path still changes at
    most once, it is [/dev/tun] exactly when [retried] is set, and once it
    is it stays so. *)
Theorem tun_run_switches_once (ops : list tun_op) :
  let sts := tun_run ops tun_init in
  switches sts <= 1 /\
  Forall tun_consistent sts /\
  (forall st, In st sts -> retried st = true ->
     forall more,
       Forall (fun st' => retried st' = true /\ tun_dev st' = lit "/dev/tun")
              (tun_run more st)).
Proof.
  cbv zeta.
  assert (Hsw : forall ops st, switches (tun_run ops st) <= 1).
  { clear ops. induction ops as [| op ops IH]; intros st; [simpl; lia |].
    destruct (tun_run_head ops (snd (tun_step op st))) as [rest Hrest].
    pose proof (IH (snd (tun_step op st))) as IH1.
    cbn [tun_run switches]. rewrite Hrest in *.
    destruct (list_eq_dec ascii_dec (tun_dev st)
                (tun_dev (snd (tun_step op st)))) as [_ | Hne].
    - exact IH1.
    - destruct (tun_step_statics op st) as [[H1 H2] | [_ [H1 _]]].
      + cbv zeta in H2. congruence.
      + cbv zeta in H1.
        destruct (tun_run_switches_retried ops _ H1) as [H0 _].
        rewrite Hrest in H0. rewrite H0. lia. }
  assert (Hcons : forall ops st, tun_consistent st ->
                    Forall tun_consistent (tun_run ops st)).
  { clear ops. induction ops as [| op ops IH]; intros st Hc; simpl.
    - constructor; auto.
    - constructor; [assumption |]. apply IH.
      unfold tun_consistent in *.
      destruct (tun_step_statics op st) as [[H1 H2] | [_ [H1 H2]]];
        cbv zeta in H1, H2; rewrite H1, H2; [assumption | reflexivity]. }
  split; [apply Hsw |]. split; [apply Hcons; reflexivity |].
  intros st Hin Hr more.
  pose proof (Hcons ops tun_init eq_refl) as Hall.
  rewrite Forall_forall in Hall. specialize (Hall st Hin).
  unfold tun_consistent in Hall. rewrite Hr in Hall.
  destruct (tun_run_switches_retried more st Hr) as [_ Hf].
  eapply Forall_impl; [| exact Hf].
  intros st' [H1 H2]. split; [assumption | congruence].
Qed.

(** X8: toggling the queue on a descriptor [tun_alloc] has just returned
    makes one TUNSETQUEUE request on that descriptor, with an empty name and
    the attach or detach flag, and returns the kernel's answer; whether the
    answer is good or bad, the descriptor stays open (it is never closed
    here, unlike after a refused TUNSETIFF) and the statics stay as
    [tun_alloc] left them. *)
Theorem tun_set_queue_after_alloc (dev : option cstr) (flags : Z)
  (enable : bool) (st : tun_state) :
  let fd := fst (tun_alloc dev flags st) in
  let st1 := snd (tun_alloc dev flags st) in
  let ret := fst (tun_set_queue fd enable st1) in
  let st2 := snd (tun_set_queue fd enable st1) in
  (0 <= fd)%Z ->
  tun_events st2 =
    tun_events st1 ++
    [EvIoctl fd TUNSETQUEUE
       {| ifr_name := [];
          ifr_flags := if enable then IFF_ATTACH_QUEUE else IFF_DETACH_QUEUE |}
       ret] /\
  open_fds (tun_events st2) = fd :: open_fds (tun_events st) /\
  retried st2 = retried st1 /\ tun_dev st2 = tun_dev st1.
Proof.
  cbv zeta. intros Hfd.
  pose proof (tun_alloc_open_fds dev flags st) as Hacc.
  assert (Hge : (fst (tun_alloc dev flags st) <? 0)%Z = false)
    by (apply Z.ltb_ge; exact Hfd).
  rewrite Hge in Hacc.
  unfold tun_set_queue. cbn [fst snd tun_log tun_events retried tun_dev].
  split; [| split; [| split; reflexivity]].
  - destruct enable; reflexivity.
  - unfold open_fds in *. rewrite open_fds_app, Hacc. reflexivity.
Qed.

(** ** Errors, bounds and order in [raise_up_iface] *)

Lemma cidr_guard_passes (m : in_addr) :
  in_addr_ok m -> (32 <? cidr_loop (be32_load host m) 0)%N = false.
Proof.
  intros Hok.
  destruct (cidr_loop_size (be32_load host m) (be32_load_lt m Hok))
    as [Hsize Hle].
  apply N.ltb_ge. rewrite Hsize. exact Hle.
Qed.

Lemma derive_addresses_fails (iface : srv_iface_cfg) :
  inet_pton (strncpy (ipv4_netmask iface) (IPV4SAFE - 1)) = None \/
  inet_pton (strncpy (ipv4 iface) (IPV4SAFE - 1)) = None ->
  derive_addresses iface = Ok None.
Proof.
  intros H. unfold derive_addresses.
  destruct (inet_pton (strncpy (ipv4_netmask iface) (IPV4SAFE - 1)))
    as [m |] eqn:Hm; [| reflexivity].
  destruct H as [H | H]; [discriminate |].
  cbv zeta. destruct (inet_pton_dotted _ _ Hm) as [_ Hok].
  rewrite (cidr_guard_passes m Hok), H. reflexivity.
Qed.

(** X9: when the netmask or the address (as far as [strncpy] takes it) is
    not a dotted-quad, [raise_up_iface] returns [false] without running any
    command and without touching anything, whatever the interface name and
    the MTU are. *)
Theorem raise_up_iface_rejects_unparsable (w : world) :
  inet_pton (strncpy (ipv4_netmask (w_iface w)) (IPV4SAFE - 1)) = None \/
  inet_pton (strncpy (ipv4 (w_iface w)) (IPV4SAFE - 1)) = None ->
  raise_up_iface w = Ok (false, w).
Proof.
  intros H. unfold raise_up_iface. cbv zeta.
  rewrite (derive_addresses_fails _ H). reflexivity.
Qed.

Lemma strncpy_idem (s : cstr) (n : nat) :
  strncpy (strncpy s n) n = strncpy s n.
Proof.
  unfold strncpy. rewrite firstn_firstn, Nat.min_id. reflexivity.
Qed.

(** [derive_addresses] reads of the two texts only what [strncpy] keeps. *)
Lemma derive_addresses_trunc (iface : srv_iface_cfg) :
  derive_addresses iface =
  derive_addresses
    {| dev := dev iface; mtu := mtu iface;
       ipv4 := strncpy (ipv4 iface) (IPV4SAFE - 1);
       ipv4_netmask := strncpy (ipv4_netmask iface) (IPV4SAFE - 1) |}.
Proof.
  unfold derive_addresses. cbn [ipv4 ipv4_netmask].
  rewrite !strncpy_idem. reflexivity.
Qed.

Lemma derive_addresses_succeeds (iface : srv_iface_cfg) (a m : in_addr) :
  3 <= IPV4LEN ->
  inet_pton (strncpy (ipv4 iface) (IPV4SAFE - 1)) = Some a ->
  inet_pton (strncpy (ipv4_netmask iface) (IPV4SAFE - 1)) = Some m ->
  exists d, derive_addresses iface = Ok (Some d).
Proof.
  intros HL Ha Hm. rewrite derive_addresses_trunc.
  destruct (inet_pton_dotted _ _ Ha) as [_ Hoka].
  destruct (inet_pton_dotted _ _ Hm) as [_ Hokm].
  assert (Hokn : in_addr_ok (in_addr_and a m)).
  { rewrite <- (be32_store_load a Hoka), <- (be32_store_load m Hokm).
    rewrite <- be32_store_land. apply be32_store_ok. }
  destruct (cidr_loop_size (be32_load host m) (be32_load_lt m Hokm))
    as [Hsize Hc32].
  pose proof (utoa_cidr_length (cidr_loop (be32_load host m) 0)) as Hcl.
  rewrite Hsize in Hcl. specialize (Hcl Hc32).
  pose proof (dotted_length a Hoka) as Hla.
  pose proof (dotted_length _ Hokn) as Hln.
  eexists. apply (derive_addresses_spec _ a m); cbn [ipv4 ipv4_netmask];
    try assumption; cbv zeta; rewrite Hsize; unfold IPV4SAFE; lia.
Qed.

Lemma derive_addresses_outcome (iface : srv_iface_cfg) :
  3 <= IPV4LEN ->
  derive_addresses iface <> Overrun /\
  (derive_addresses iface = Ok None <->
   inet_pton (strncpy (ipv4_netmask iface) (IPV4SAFE - 1)) = None \/
   inet_pton (strncpy (ipv4 iface) (IPV4SAFE - 1)) = None).
Proof.
  intros HL.
  destruct (inet_pton (strncpy (ipv4_netmask iface) (IPV4SAFE - 1)))
    as [m |] eqn:Hm.
  - destruct (inet_pton (strncpy (ipv4 iface) (IPV4SAFE - 1)))
      as [a |] eqn:Ha.
    + destruct (derive_addresses_succeeds iface a m HL Ha Hm) as [d Hd].
      rewrite Hd. split; [discriminate |].
      split; [discriminate | intros [H | H]; discriminate].
    + rewrite derive_addresses_fails by (rewrite Ha; auto).
      split; [discriminate | split; auto].
  - rewrite derive_addresses_fails by (rewrite Hm; auto).
    split; [discriminate | split; auto].
Qed.

(** X10: with [IPV4LEN] at least 3, lines 131-192 of [raise_up_iface] stay
    within their buffers for every configuration, however long or malformed
    its texts are; they end in [return false] exactly when the netmask or
    the address, as far as [strncpy] takes it, is not a dotted-quad. *)
Theorem derive_addresses_in_bounds (iface : srv_iface_cfg) :
  3 <= IPV4LEN ->
  derive_addresses iface <> Overrun /\
  (derive_addresses iface = Ok None <->
   inet_pton (strncpy (ipv4_netmask iface) (IPV4SAFE - 1)) = None \/
   inet_pton (strncpy (ipv4 iface) (IPV4SAFE - 1)) = None).
Proof.
  apply derive_addresses_outcome.
Qed.

(** X11: with [IPV4LEN] at least 3, [raise_up_iface] runs past a buffer
    exactly when the addresses were derived and one of the four escaped
    texts, with its terminator, is longer than the buffer it is written to
    ([IPV4SAFE] bytes for the three address texts, 32 for the name); in
    every other case it returns. *)
Theorem raise_up_iface_overrun_iff (w : world) :
  3 <= IPV4LEN ->
  (raise_up_iface w = Overrun <->
   exists d,
     derive_addresses (w_iface w) = Ok (Some d) /\
     (IPV4SAFE < length (escapeshellarg (u_ipv4_network d)) + 1 \/
      IPV4SAFE < length (escapeshellarg (u_ipv4_broadcast d)) + 1 \/
      32 < length (escapeshellarg (dev (w_iface w))) + 1 \/
      IPV4SAFE < length (escapeshellarg (u_ipv4 d)) + 1)).
Proof.
  intros HL.
  destruct (derive_addresses_outcome (w_iface w) HL) as [Hno _].
  unfold raise_up_iface. cbv zeta.
  destruct (derive_addresses (w_iface w)) as [[d |] |] eqn:Hd;
    cbv beta iota delta [bind]; [| | congruence].
  2: { split; [discriminate | intros (d & Hd' & _); discriminate]. }
  unfold simple_esc_arg, store_str, EXEC_CMD.
  destruct (length (escapeshellarg (u_ipv4_network d)) + 1 <=? IPV4SAFE)
    eqn:H1;
    [apply Nat.leb_le in H1 | apply Nat.leb_gt in H1].
  2: { split; [intros _; exists d; auto | reflexivity]. }
  destruct (length (escapeshellarg (u_ipv4_broadcast d)) + 1 <=? IPV4SAFE)
    eqn:H2;
    [apply Nat.leb_le in H2 | apply Nat.leb_gt in H2].
  2: { split; [intros _; exists d; auto | reflexivity]. }
  destruct (length (escapeshellarg (dev (w_iface w))) + 1 <=? 32) eqn:H3;
    [apply Nat.leb_le in H3 | apply Nat.leb_gt in H3].
  2: { split; [intros _; exists d; auto | reflexivity]. }
  destruct (length (escapeshellarg (u_ipv4 d)) + 1 <=? IPV4SAFE) eqn:H4;
    [apply Nat.leb_le in H4 | apply Nat.leb_gt in H4].
  2: { split; [intros _; exists d; auto | reflexivity]. }
  cbv beta iota zeta.
  split.
  - intros H. exfalso.
    destruct (sys_system (w_events w) _ <? 0)%Z; [discriminate |].
    destruct (sys_system _ _ <? 0)%Z; discriminate.
  - intros (d' & Hd' & Hbig). injection Hd' as <-. lia.
Qed.

(** X12: the commands of [raise_up_iface] come in a fixed order and are
    never undone: a run that returns ran nothing, or the link-up command
    alone (which then failed), or the link-up command with a non-negative
    status followed by the address command; it returns [true] exactly in
    the last case with a non-negative status of the address command, so a
    refused address command leaves the link up and [false] returned. *)
Theorem raise_up_iface_command_order (w : world) (r : bool) (w' : world) :
  raise_up_iface w = Ok (r, w') ->
  let link_up :=
    snprintf 1024 (link_up_text (escapeshellarg (dev (w_iface w)))
                                (u16 (mtu (w_iface w)))) in
  exists evs,
    w_events w' = w_events w ++ evs /\
    ((evs = [] /\ r = false /\ derive_addresses (w_iface w) = Ok None) \/
     (exists r1, evs = [EvSystem link_up r1] /\ (r1 < 0)%Z /\ r = false) \/
     (exists r1 d r2,
        derive_addresses (w_iface w) = Ok (Some d) /\
        evs = [EvSystem link_up r1;
               EvSystem
                 (snprintf 1024
                    (addr_add_text (escapeshellarg (dev (w_iface w)))
                       (escapeshellarg (u_ipv4 d))
                       (escapeshellarg (u_ipv4_broadcast d)))) r2] /\
        (0 <= r1)%Z /\
        (r = true <-> (0 <= r2)%Z))).
Proof.
  intros Hrun. cbv zeta.
  destruct (raise_up_iface_inv w r w' Hrun)
    as [(Hd & -> & ->) | (d & Hd & Hrest)].
  { exists []. rewrite app_nil_r. auto. }
  cbv zeta in Hrest. destruct Hrest as (_ & _ & _ & Hrest).
  destruct (sys_system (w_events w) _ <? 0)%Z eqn:H1.
  - destruct Hrest as [-> ->]. apply Z.ltb_lt in H1.
    eexists. split; [reflexivity |]. right; left. eauto.
  - destruct Hrest as [-> ->]. apply Z.ltb_ge in H1.
    eexists. split; [cbn [w_events]; rewrite <- app_assoc; reflexivity |].
    right; right. do 3 eexists. split; [exact Hd |].
    split; [reflexivity |]. split; [exact H1 |].
    rewrite negb_true_iff, Z.ltb_ge. reflexivity.
Qed.

(** ** The derived subnet *)

Lemma land_lnot_self (m : N) :
  (m < 2 ^ 32)%N -> N.land (N.lnot m 32) m = 0%N.
Proof.
  intros Hm. apply N.bits_inj. intros i.
  rewrite N.land_spec, N.bits_0.
  destruct (N.lt_ge_cases i 32) as [Hi | Hi].
  - rewrite N.lnot_spec_low by exact Hi. apply andb_negb_l.
  - rewrite N.lnot_spec_high by exact Hi. rewrite andb_diag.
    rewrite <- (N.mod_small m (2 ^ 32)) by exact Hm.
    apply N.mod_pow2_bits_high. exact Hi.
Qed.

(** X13: the addresses [raise_up_iface] derives form a subnet of the
    netmask, on either byte order: the network address has no bit outside
    the mask, the broadcast address agrees with it (and with the interface
    address) under the mask and has every bit outside the mask set. *)
Theorem derive_addresses_subnet (iface : srv_iface_cfg) (d : addressing) :
  derive_addresses iface = Ok (Some d) ->
  exists a m,
    inet_pton (strncpy (ipv4 iface) (IPV4SAFE - 1)) = Some a /\
    inet_pton (strncpy (ipv4_netmask iface) (IPV4SAFE - 1)) = Some m /\
    let ip := be32_load host a in
    let mask := be32_load host m in
    N.land ip mask = b_ipv4_network d /\
    N.land (b_ipv4_network d) mask = b_ipv4_network d /\
    N.land (b_ipv4_broadcast d) mask = b_ipv4_network d /\
    N.land (b_ipv4_network d) (N.lnot mask 32) = 0%N /\
    N.land (b_ipv4_broadcast d) (N.lnot mask 32) = N.lnot mask 32.
Proof.
  intros Hd.
  destruct (derive_addresses_inv _ _ Hd)
    as (a & m & Ha & Hm & _ & _ & _ & Hn & Hb & _).
  exists a, m. split; [exact Ha |]. split; [exact Hm |]. cbv zeta.
  destruct (inet_pton_dotted _ _ Hm) as [_ Hokm].
  pose proof (be32_load_lt m Hokm) as Hlt.
  pose proof (land_lnot_self _ Hlt) as Hz.
  set (M := be32_load host m) in *. set (A := be32_load host a) in *.
  rewrite Hb, Hn.
  assert (H1 : N.land (N.land A M) M = N.land A M)
    by (rewrite <- N.land_assoc, N.land_diag; reflexivity).
  assert (H2 : N.land (N.land A M) (N.lnot M 32) = 0%N).
  { rewrite <- N.land_assoc, (N.land_comm M), Hz. apply N.land_0_r. }
  repeat split.
  - exact H1.
  - rewrite N.land_lor_distr_l, H1, Hz. apply N.lor_0_r.
  - exact H2.
  - rewrite N.land_lor_distr_l, H2, N.land_diag. apply N.lor_0_l.
Qed.

(** ** [main] *)

Lemma cstr_eqb_iff (s t : cstr) : cstr_eqb s t = true <-> s = t.
Proof.
  unfold cstr_eqb. destruct (list_eq_dec ascii_dec s t) as [He | Hne].
  - split; auto.
  - split; [discriminate | contradiction].
Qed.

Lemma strncmp_server (s : cstr) :
  strncmp_is_0 s (lit "server") 6 = true <-> firstn 6 s = lit "server".
Proof. unfold strncmp_is_0. apply cstr_eqb_iff. Qed.

Lemma strncmp_client (s : cstr) :
  strncmp_is_0 s (lit "client") 6 = true <-> firstn 6 s = lit "client".
Proof. unfold strncmp_is_0. apply cstr_eqb_iff. Qed.

Lemma strncmp_version (s : cstr) :
  strncmp_is_0 s (lit "--version") 9 = true <-> firstn 9 s = lit "--version".
Proof. unfold strncmp_is_0. apply cstr_eqb_iff. Qed.

Lemma no_server_in_help (app : cstr) :
  existsb is_run_server (show_general_help app) = false.
Proof. reflexivity. Qed.

(** X14: [main] hands over to [teavpn2_run_server] exactly when there is a
    first argument whose first six characters are [server] (so [serverx]
    does as well as [server]); it then passes the argument vector from that
    word on, returns what the server returns, and writes nothing itself. *)
Theorem main_runs_server_on_prefix (app : cstr) (args : list cstr) :
  (existsb is_run_server (snd (main app args)) = true <->
   exists argv1 rest, args = argv1 :: rest /\ firstn 6 argv1 = lit "server")
  /\
  (forall argv1 rest,
     args = argv1 :: rest -> firstn 6 argv1 = lit "server" ->
     main app args =
       (teavpn2_run_server args,
        [MeArInit 16384; MeRunServer args (teavpn2_run_server args)]) /\
     stdout_of (snd (main app args)) = []).
Proof.
  split.
  - destruct args as [| argv1 rest].
    + cbn [main snd]. rewrite no_server_in_help.
      split; [discriminate | intros (? & ? & H & _); discriminate].
    + cbn [main].
      destruct (strncmp_is_0 argv1 (lit "server") 6) eqn:Hs.
      * apply strncmp_server in Hs. split; [eauto | reflexivity].
      * assert (Hns : firstn 6 argv1 <> lit "server").
        { intros H. apply strncmp_server in H. congruence. }
        assert (Hno : existsb is_run_server
                  (snd (if strncmp_is_0 argv1 (lit "client") 6
                        then (0%Z, [MeArInit 16384])
                        else if strncmp_is_0 argv1 (lit "--version") 9
                        then (0%Z,
                              [MeArInit 16384] ++
                              [MePrintf (lit "TeaVPN2 " ++ TEAVPN2_VERSION
                                         ++ nl)])
                        else (EINVAL,
                              [MeArInit 16384] ++
                              MePrintf (lit "Invalid argument: " ++ dq ++
                                        argv1 ++ dq ++ nl)
                              :: show_general_help app))) = false).
        { destruct (strncmp_is_0 argv1 (lit "client") 6); [reflexivity |].
          destruct (strncmp_is_0 argv1 (lit "--version") 9); reflexivity. }
        cbv zeta. rewrite Hno.
        split; [discriminate |].
        intros (a1 & r1 & H & Hp). injection H as <- <-. contradiction.
  - intros argv1 rest -> Hs. apply strncmp_server in Hs.
    cbn [main]. rewrite Hs. split; reflexivity.
Qed.

(** X15: when the first argument does not begin with [server], [main]
    never runs the server and returns 0 or [EINVAL] (22, as a positive
    number): [EINVAL] exactly when there is a first argument that begins
    with neither [client] nor [--version]; the usage text is written exactly
    when there is no argument or the status is [EINVAL], in the latter case
    after the line naming the argument; with no argument the arena is not
    even initialised; an argument that begins with [client] does nothing
    but initialise it. *)
Theorem main_status_and_usage (app : cstr) (args : list cstr) :
  (forall argv1 rest, args = argv1 :: rest -> firstn 6 argv1 <> lit "server") ->
  let ret := fst (main app args) in
  let evs := snd (main app args) in
  (ret = 0%Z \/ ret = EINVAL) /\
  existsb is_run_server evs = false /\
  (ret = EINVAL <->
   exists argv1 rest, args = argv1 :: rest /\
     firstn 6 argv1 <> lit "client" /\ firstn 9 argv1 <> lit "--version") /\
  ((exists pre, evs = pre ++ show_general_help app) <->
   args = [] \/ ret = EINVAL) /\
  (args = [] -> evs = show_general_help app) /\
  (forall argv1 rest, args = argv1 :: rest ->
     (ret = EINVAL ->
      evs = MeArInit 16384
            :: MePrintf (lit "Invalid argument: " ++ dq ++ argv1 ++ dq ++ nl)
            :: show_general_help app) /\
     (firstn 6 argv1 = lit "client" -> evs = [MeArInit 16384])).
Proof.
  intros Hns. cbv zeta.
  assert (Hlen : forall pre evs,
            evs = pre ++ show_general_help app -> 8 <= length evs).
  { intros pre evs ->. rewrite length_app. simpl. lia. }
  destruct args as [| argv1 rest].
  { cbn [main fst snd].
    split; [left; reflexivity |].
    split; [reflexivity |].
    split; [split; [unfold EINVAL; discriminate
                   | intros (? & ? & H & _); discriminate H] |].
    split; [split; [auto | intros _; exists []; reflexivity] |].
    split; [intros _; reflexivity |].
    intros a1 r1 H. discriminate H. }
  specialize (Hns argv1 rest eq_refl).
  assert (Hs : strncmp_is_0 argv1 (lit "server") 6 = false).
  { destruct (strncmp_is_0 argv1 (lit "server") 6) eqn:H; [| reflexivity].
    apply strncmp_server in H. contradiction. }
  cbn [main]. rewrite Hs.
  destruct (strncmp_is_0 argv1 (lit "client") 6) eqn:Hc.
  { apply strncmp_client in Hc. cbn [fst snd].
    split; [left; reflexivity |].
    split; [reflexivity |].
    split; [split; [unfold EINVAL; discriminate
                   | intros (a1 & r1 & H & Hnc & _);
                     injection H as <- <-; contradiction] |].
    split; [split; [intros [pre H]; apply Hlen in H; simpl in H; lia
                   | intros [H | H];
                     [discriminate H | unfold EINVAL in H; discriminate H]] |].
    split; [intros H; discriminate H |].
    intros a1 r1 H. injection H as <- <-.
    split; [unfold EINVAL; discriminate | reflexivity]. }
  assert (Hnc : firstn 6 argv1 <> lit "client").
  { intros H. apply strncmp_client in H. congruence. }
  destruct (strncmp_is_0 argv1 (lit "--version") 9) eqn:Hv.
  { apply strncmp_version in Hv. cbn [fst snd].
    split; [left; reflexivity |].
    split; [reflexivity |].
    split; [split; [unfold EINVAL; discriminate
                   | intros (a1 & r1 & H & _ & Hnv);
                     injection H as <- <-; contradiction] |].
    split; [split; [intros [pre H]; apply Hlen in H; simpl in H; lia
                   | intros [H | H];
                     [discriminate H | unfold EINVAL in H; discriminate H]] |].
    split; [intros H; discriminate H |].
    intros a1 r1 H. injection H as <- <-.
    split; [unfold EINVAL; discriminate | intros Hcl; contradiction]. }
  assert (Hnv : firstn 9 argv1 <> lit "--version").
  { intros H. apply strncmp_version in H. congruence. }
  cbn [fst snd].
  split; [right; reflexivity |].
  split; [reflexivity |].
  split; [split; [intros _; exists argv1, rest; auto | reflexivity] |].
  split; [split; [intros _; right; reflexivity
                 | intros _;
                   exists [MeArInit 16384;
                           MePrintf (lit "Invalid argument: " ++ dq ++
                                     argv1 ++ dq ++ nl)];
                   reflexivity] |].
  split; [intros H; discriminate H |].
  intros a1 r1 H. injection H as <- <-.
  split; [reflexivity | intros Hcl; contradiction].
Qed.

(** The name is escaped into [e_dev[32]] after the two address texts: when
    the addresses are derived and the escaped name does not fit, the run
    ends in an overrun whatever became of those. *)
Lemma raise_up_iface_name_overrun (w : world) (d : addressing) :
  derive_addresses (w_iface w) = Ok (Some d) ->
  31 < length (escapeshellarg (dev (w_iface w))) ->
  raise_up_iface w = Overrun.
Proof.
  intros Hd Hlen. unfold raise_up_iface. cbv zeta. rewrite Hd.
  cbv beta iota delta [bind]. unfold simple_esc_arg.
  destruct (store_str IPV4SAFE (escapeshellarg (u_ipv4_network d)));
    [| reflexivity].
  destruct (store_str IPV4SAFE (escapeshellarg (u_ipv4_broadcast d)));
    [| reflexivity].
  unfold store_str at 1.
  assert (Hcap : (length (escapeshellarg (dev (w_iface w))) + 1 <=? 32)
                 = false) by (apply Nat.leb_gt; lia).
  rewrite Hcap. reflexivity.
Qed.

End Program.

(** * Concrete runs *)

(** C1 (the code at netmask 255.255.255.252): the netmask parses to the
    octets 255, 255, 255, 252, whose 32-bit integer has 30 set bits on
    either byte order; the loop of [raise_up_iface] nevertheless counts 32,
    the length of the binary numeral, again on either byte order, and the
    address is annotated [/32] whatever [IPV4LEN] is; with [IPV4LEN] = 16
    and POSIX quoting the second command assigns [10.0.0.1/32]. *)
Theorem netmask_252_prefix_is_32 (host : byte_order) (IPV4LEN : nat) :
  inet_pton (lit "255.255.255.252") = Some (Octets 255 255 255 252) /\
  popcount (be32_load host (Octets 255 255 255 252)) = 30%N /\
  cidr_loop (be32_load host (Octets 255 255 255 252)) 0 = 32%N /\
  (exists d, derive_addresses host IPV4LEN cfg_252 = Ok (Some d) /\
             cidr d = 32%N /\ u_ipv4 d = lit "10.0.0.1/32") /\
  raise_up_iface host 16 shell_quote system_ok
    {| w_iface := cfg_252; w_events := [] |} =
  Ok (true,
      {| w_iface := cfg_252;
         w_events :=
           [EvSystem (lit "/sbin/ip link set dev 'tun0' up mtu 1500") 0;
            EvSystem (lit "/sbin/ip addr add dev 'tun0' '10.0.0.1/32' broadcast '10.0.0.3'") 0] |}).
Proof.
  assert (Hm : inet_pton (lit "255.255.255.252") = Some (Octets 255 255 255 252))
    by (vm_compute; reflexivity).
  assert (Ha : inet_pton (lit "10.0.0.1") = Some (Octets 10 0 0 1))
    by (vm_compute; reflexivity).
  assert (Hc : cidr_loop (be32_load host (Octets 255 255 255 252)) 0 = 32%N)
    by (destruct host; vm_compute; reflexivity).
  split; [exact Hm |].
  split; [destruct host; vm_compute; reflexivity |].
  split; [exact Hc |].
  split; [| destruct host; vm_compute; reflexivity].
  pose proof (derive_addresses_spec host IPV4LEN cfg_252
                (Octets 10 0 0 1) (Octets 255 255 255 252) Ha Hm) as Hd.
  cbv zeta in Hd. rewrite Hc in Hd.
  eexists. split.
  - apply Hd.
    + apply Nat.le_trans with 16;
        [apply Nat.leb_le; vm_compute; reflexivity | unfold IPV4SAFE; lia].
    + apply Nat.le_trans with 16;
        [apply Nat.leb_le; vm_compute; reflexivity | unfold IPV4SAFE; lia].
  - split; vm_compute; reflexivity.
Qed.

(** C3: for every address and netmask that parse, on either byte order and
    with room for the prefix length ([IPV4LEN] at least 3),
    [raise_up_iface] derives the network address as the AND of the two
    32-bit integers and the broadcast address as the OR of the network
    address with the complemented netmask; in octets these are the
    octet-wise AND and OR-NOT, and the texts are their dotted-quads (the
    network one with the prefix length behind it). On a little-endian host,
    address 10.0.0.1 with netmask 255.0.0.0 gives network [10.0.0.0/8] and
    broadcast [10.255.255.255], whatever [IPV4LEN] is. *)
Theorem raise_up_iface_network_broadcast :
  (forall (host : byte_order) (IPV4LEN : nat) (iface : srv_iface_cfg)
          (a m : in_addr),
     inet_pton (ipv4 iface) = Some a ->
     inet_pton (ipv4_netmask iface) = Some m ->
     3 <= IPV4LEN ->
     exists d,
       derive_addresses host IPV4LEN iface = Ok (Some d) /\
       b_ipv4_network d = N.land (be32_load host a) (be32_load host m) /\
       b_ipv4_broadcast d =
         N.lor (b_ipv4_network d) (N.lnot (be32_load host m) 32) /\
       be32_store host (b_ipv4_network d) = in_addr_and a m /\
       be32_store host (b_ipv4_broadcast d) =
         in_addr_or_not (in_addr_and a m) m /\
       u_ipv4_network d =
         dotted (in_addr_and a m) ++ lit "/" ++ utoa (cidr d) /\
       u_ipv4_broadcast d = dotted (in_addr_or_not (in_addr_and a m) m)) /\
  (forall IPV4LEN : nat,
     exists d,
       derive_addresses LittleEndian IPV4LEN cfg_10 = Ok (Some d) /\
       u_ipv4_network d = lit "10.0.0.0/8" /\
       u_ipv4_broadcast d = lit "10.255.255.255").
Proof.
  split.
  - intros host IPV4LEN iface a m Ha Hm HL.
    destruct (inet_pton_dotted _ _ Ha) as [_ Hoka].
    destruct (inet_pton_dotted _ _ Hm) as [_ Hokm].
    assert (Hokn : in_addr_ok (in_addr_and a m)).
    { rewrite <- (be32_store_load host a Hoka),
              <- (be32_store_load host m Hokm).
      rewrite <- be32_store_land. apply be32_store_ok. }
    destruct (cidr_loop_size (be32_load host m) (be32_load_lt host m Hokm))
      as [Hsize Hc32].
    pose proof (utoa_cidr_length (cidr_loop (be32_load host m) 0)) as Hcl.
    rewrite Hsize in Hcl. specialize (Hcl Hc32).
    pose proof (dotted_length a Hoka) as Hla.
    pose proof (dotted_length _ Hokn) as Hln.
    pose proof (derive_addresses_spec host IPV4LEN iface a m Ha Hm) as Hd.
    cbv zeta in Hd. rewrite Hsize in Hd.
    eexists. split.
    + apply Hd; unfold IPV4SAFE; lia.
    + cbn [b_ipv4_network b_ipv4_broadcast u_ipv4_network u_ipv4_broadcast
           cidr].
      rewrite be32_store_lor_lnot, be32_store_land, !be32_store_load
        by assumption.
      repeat split; reflexivity.
  - intros IPV4LEN.
    assert (Hm : inet_pton (lit "255.0.0.0") = Some (Octets 255 0 0 0))
      by (vm_compute; reflexivity).
    assert (Ha : inet_pton (lit "10.0.0.1") = Some (Octets 10 0 0 1))
      by (vm_compute; reflexivity).
    pose proof (derive_addresses_spec LittleEndian IPV4LEN cfg_10
                  (Octets 10 0 0 1) (Octets 255 0 0 0) Ha Hm) as Hd.
    cbv zeta in Hd.
    eexists. split.
    + apply Hd;
        (apply Nat.le_trans with 16;
         [apply Nat.leb_le; vm_compute; reflexivity | unfold IPV4SAFE; lia]).
    + split; vm_compute; reflexivity.
Qed.

(** The scenario 192.168.1.5 / 255.255.255.0 of the specification, on a
    little-endian host with [IPV4LEN] = 16: prefix 24, network
    192.168.1.0/24, broadcast 192.168.1.255. *)
Lemma raise_up_iface_network_broadcast_witness :
  exists d,
    derive_addresses LittleEndian 16 cfg_192 = Ok (Some d) /\
    b_ipv4_network d =
      N.land (be32_load LittleEndian (Octets 192 168 1 5))
             (be32_load LittleEndian (Octets 255 255 255 0)) /\
    u_ipv4_network d = lit "192.168.1.0/24" /\
    u_ipv4_broadcast d = lit "192.168.1.255".
Proof.
  destruct (proj1 raise_up_iface_network_broadcast LittleEndian 16 cfg_192
              (Octets 192 168 1 5) (Octets 255 255 255 0)
              eq_refl eq_refl (proj1 (Nat.leb_le 3 16) eq_refl))
    as (d & Hd & Hn & _ & _ & _ & Hun & Hub).
  exists d. split; [exact Hd |]. split; [exact Hn |].
  rewrite Hun, Hub.
  assert (Hc : cidr d = 24%N).
  { revert Hd. vm_compute. intros H. injection H as <-. reflexivity. }
  rewrite Hc. split; reflexivity.
Defined.

(** A dotted-quad and its round trip: [192.168.1.5]. *)
Lemma inet_pton_ntop_roundtrip_witness :
  inet_pton (lit "192.168.1.5") = Some (Octets 192 168 1 5) /\
  inet_ntop (Octets 192 168 1 5) 32 = Some (lit "192.168.1.5") /\
  inet_ntop (be32_store LittleEndian
               (be32_load LittleEndian (Octets 192 168 1 5))) 32 =
    Some (lit "192.168.1.5").
Proof.
  split; [reflexivity |].
  apply (inet_pton_ntop_roundtrip LittleEndian (lit "192.168.1.5")
           (Octets 192 168 1 5) 32).
  - reflexivity.
  - apply Nat.leb_le. reflexivity.
Defined.

(** A run in which the kernel refuses TUNSETIFF: the descriptor 3 is closed
    and -1 returned. *)
Lemma tun_alloc_bind_failure_closes_witness :
  fst (tun_alloc open_ok ioctl_refused (Some (lit "tun0")) IFF_TUN tun_init)
    = (-1)%Z /\
  [EvClose 3] = [EvClose 3] /\
  (exists pre' path err,
     [EvOpen (lit "/dev/net/tun") 3 0] = pre' ++ [EvOpen path 3%Z err] /\
     (0 <= 3)%Z) /\
  open_fds (tun_events (snd (tun_alloc open_ok ioctl_refused
                               (Some (lit "tun0")) IFF_TUN tun_init))) =
    open_fds (tun_events tun_init).
Proof.
  apply (tun_alloc_bind_failure_closes open_ok ioctl_refused
           (Some (lit "tun0")) IFF_TUN tun_init
           [EvOpen (lit "/dev/net/tun") 3 0] [EvClose 3] 3 TUNSETIFF
           {| ifr_name := lit "tun0"; ifr_flags := 1 |} (-1)).
  - vm_compute. reflexivity.
  - reflexivity.
Defined.

(** C8 (the claim at a 16-character name): with a control node that opens
    and a kernel that accepts the request, [tun_alloc] returns the
    descriptor 3, not [-EINVAL], after binding the first 15 characters. *)
Lemma tun_alloc_long_name_accepted :
  IFNAMSIZ - 1 < length long_name /\
  tun_alloc open_ok ioctl_ok (Some long_name) IFF_TUN tun_init =
    (3%Z,
     {| retried := false;
        tun_dev := lit "/dev/net/tun";
        tun_events :=
          [EvOpen (lit "/dev/net/tun") 3 0;
           EvIoctl 3 TUNSETIFF
             {| ifr_name := lit "tunnel012345678"; ifr_flags := 1 |} 0] |}) /\
  fst (tun_alloc open_ok ioctl_ok (Some long_name) IFF_TUN tun_init)
    <> (- EINVAL)%Z.
Proof.
  split; [vm_compute; lia |].
  split; [vm_compute; reflexivity |].
  vm_compute. discriminate.
Qed.

Lemma tun_alloc_long_name_truncated_witness :
  IFNAMSIZ - 1 < length long_name /\
  tun_alloc open_ok ioctl_ok (Some long_name) IFF_TUN tun_init =
    tun_alloc open_ok ioctl_ok (Some (lit "tunnel012345678")) IFF_TUN tun_init.
Proof.
  assert (H : IFNAMSIZ - 1 < length long_name)
    by (apply Nat.ltb_lt; reflexivity).
  split; [exact H |].
  exact (proj1 (tun_alloc_long_name_truncated open_ok ioctl_ok long_name
                  IFF_TUN tun_init H)).
Defined.

(** A run on 10.0.0.1 / 255.0.0.0 in which both commands are accepted. *)
Lemma raise_up_iface_commands_escaped_witness :
  raise_up_iface LittleEndian 16 shell_quote system_ok
    {| w_iface := cfg_10; w_events := [] |} =
  Ok (true,
      {| w_iface := cfg_10;
         w_events :=
           [EvSystem (lit "/sbin/ip link set dev 'tun0' up mtu 1500") 0;
            EvSystem (lit "/sbin/ip addr add dev 'tun0' '10.0.0.1/8' broadcast '10.255.255.255'") 0] |}) /\
  exists evs,
    [EvSystem (lit "/sbin/ip link set dev 'tun0' up mtu 1500") 0%Z;
     EvSystem (lit "/sbin/ip addr add dev 'tun0' '10.0.0.1/8' broadcast '10.255.255.255'") 0%Z]
    = [] ++ evs.
Proof.
  assert (Hrun : raise_up_iface LittleEndian 16 shell_quote system_ok
            {| w_iface := cfg_10; w_events := [] |} =
          Ok (true,
              {| w_iface := cfg_10;
                 w_events :=
                   [EvSystem (lit "/sbin/ip link set dev 'tun0' up mtu 1500") 0;
                    EvSystem (lit "/sbin/ip addr add dev 'tun0' '10.0.0.1/8' broadcast '10.255.255.255'") 0] |}))
    by (vm_compute; reflexivity).
  split; [exact Hrun |].
  destruct (raise_up_iface_commands_escaped LittleEndian 16 shell_quote
              system_ok _ true _ (proj1 (Nat.leb_le 16 464) eq_refl) Hrun)
    as (evs & Hevs & _).
  exists evs. exact Hevs.
Defined.

(** A run in which the link-up command fails: one command, [false]. *)
Lemma raise_up_iface_stops_at_failed_link_up_witness :
  raise_up_iface LittleEndian 16 shell_quote system_fails
    {| w_iface := cfg_10; w_events := [] |} =
  Ok (false,
      {| w_iface := cfg_10;
         w_events :=
           [EvSystem (lit "/sbin/ip link set dev 'tun0' up mtu 1500")
                     (-1)] |}) /\
  false = false /\ @nil event = [] /\
  lit "/sbin/ip link set dev 'tun0' up mtu 1500" =
    snprintf 1024 (link_up_text (shell_quote (lit "tun0")) (u16 1500)).
Proof.
  assert (Hrun : raise_up_iface LittleEndian 16 shell_quote system_fails
            {| w_iface := cfg_10; w_events := [] |} =
          Ok (false,
              {| w_iface := cfg_10;
                 w_events :=
                   [EvSystem (lit "/sbin/ip link set dev 'tun0' up mtu 1500")
                             (-1)] |}))
    by (vm_compute; reflexivity).
  split; [exact Hrun |].
  exact (raise_up_iface_stops_at_failed_link_up LittleEndian 16 shell_quote
           system_fails _ false _
           (lit "/sbin/ip link set dev 'tun0' up mtu 1500") (-1) []
           Hrun eq_refl eq_refl).
Defined.


(** The netmask 255.255.255.0 on a little-endian host: prefix length 24. *)
Lemma netmask_prefix_in_range_witness :
  cidr_loop (be32_load LittleEndian (Octets 255 255 255 0)) 0 = 24%N /\
  (0 <= cidr_loop (be32_load LittleEndian (Octets 255 255 255 0)) 0 <= 32)%N.
Proof.
  destruct (netmask_prefix_in_range LittleEndian (lit "255.255.255.0")
              (Octets 255 255 255 0) eq_refl) as [H1 H2].
  split; [rewrite H1; reflexivity | exact H2].
Defined.

(** Fifteen single quotes as interface name: the POSIX-quoted form has 62
    characters and overruns [e_dev[32]]. *)
Lemma raise_up_iface_overruns_e_dev_witness :
  length (shell_quote (dev cfg_quotes)) = 62 /\
  raise_up_iface LittleEndian 16 shell_quote system_ok
    {| w_iface := cfg_quotes; w_events := [] |} = Overrun.
Proof.
  split; [reflexivity |].
  eapply raise_up_iface_overruns_e_dev.
  - vm_compute. reflexivity.
  - apply Nat.ltb_lt. reflexivity.
Defined.

(** Two calls on a host without [/dev/net/tun]: the first falls back to
    [/dev/tun] and succeeds there, the second opens [/dev/tun] at once. *)
Example tun_alloc_fallback_run :
  let sts := tun_alloc_run open_primary_missing ioctl_ok
               [(Some (lit "tun0"), IFF_TUN); (Some (lit "tun1"), IFF_TUN)]
               tun_init in
  map tun_dev sts = [lit "/dev/net/tun"; lit "/dev/tun"; lit "/dev/tun"] /\
  map retried sts = [false; true; true] /\
  map tun_events sts =
    [ [];
      [EvOpen (lit "/dev/net/tun") (-1) ENOENT;
       EvOpen (lit "/dev/tun") 3 0;
       EvIoctl 3 TUNSETIFF {| ifr_name := lit "tun0"; ifr_flags := 1 |} 0];
      [EvOpen (lit "/dev/net/tun") (-1) ENOENT;
       EvOpen (lit "/dev/tun") 3 0;
       EvIoctl 3 TUNSETIFF {| ifr_name := lit "tun0"; ifr_flags := 1 |} 0;
       EvOpen (lit "/dev/tun") 3 0;
       EvIoctl 3 TUNSETIFF {| ifr_name := lit "tun1"; ifr_flags := 1 |} 0] ].
Proof.
  vm_compute. repeat split.
Qed.

(** * Further concrete runs *)

Lemma tun_alloc_success_binds_name_witness :
  let res := tun_alloc open_ok ioctl_ok (Some (lit "tun0")) IFF_TUN tun_init in
  exists pre path err ret,
    tun_events (snd res) =
      tun_events tun_init ++ pre ++
      [EvOpen path (fst res) err;
       EvIoctl (fst res) TUNSETIFF
         {| ifr_name := lit "tun0"; ifr_flags := IFF_TUN |} ret] /\
    (0 <= ret)%Z.
Proof.
  cbv zeta.
  destruct (tun_alloc_success_binds_name open_ok ioctl_ok (lit "tun0")
              IFF_TUN tun_init)
    as (pre & path & err & ret & He & Hret & _).
  - vm_compute. discriminate.
  - apply Nat.leb_le. reflexivity.
  - unfold IFF_TUN. split; [apply Z.leb_le | apply Z.ltb_lt]; reflexivity.
  - exists pre, path, err, ret. split; assumption.
Defined.

Lemma tun_alloc_names_collide_witness :
  long_name <> long_name' /\
  tun_alloc open_ok ioctl_ok (Some long_name) IFF_TUN tun_init =
  tun_alloc open_ok ioctl_ok (Some long_name') IFF_TUN tun_init.
Proof.
  split; [discriminate |].
  apply tun_alloc_names_collide; [discriminate | discriminate | reflexivity].
Defined.

(** The queue request is refused; descriptor 3 stays open. *)
Lemma tun_set_queue_after_alloc_witness :
  let fd := fst (tun_alloc open_ok ioctl_no_queue (Some (lit "tun0")) IFF_TUN
                   tun_init) in
  let st1 := snd (tun_alloc open_ok ioctl_no_queue (Some (lit "tun0")) IFF_TUN
                    tun_init) in
  fst (tun_set_queue ioctl_no_queue fd true st1) = (-1)%Z /\
  open_fds (tun_events (snd (tun_set_queue ioctl_no_queue fd true st1))) =
    fd :: open_fds (tun_events tun_init).
Proof.
  cbv zeta. split; [vm_compute; reflexivity |].
  refine (proj1 (proj2 (tun_set_queue_after_alloc open_ok ioctl_no_queue
                          (Some (lit "tun0")) IFF_TUN true tun_init _))).
  vm_compute. discriminate.
Defined.

Lemma raise_up_iface_rejects_unparsable_witness :
  inet_pton (lit "10.0.0.256") = None /\
  raise_up_iface LittleEndian 16 shell_quote system_ok
    {| w_iface := cfg_bad_address; w_events := [] |} =
  Ok (false, {| w_iface := cfg_bad_address; w_events := [] |}).
Proof.
  split; [reflexivity |].
  apply raise_up_iface_rejects_unparsable. right. reflexivity.
Defined.

Lemma derive_addresses_in_bounds_witness :
  derive_addresses BigEndian 3 cfg_252 <> Overrun.
Proof.
  apply (derive_addresses_in_bounds BigEndian 3 cfg_252). apply le_n.
Defined.

Lemma raise_up_iface_overrun_iff_witness :
  raise_up_iface LittleEndian 16 shell_quote system_ok
    {| w_iface := cfg_quotes; w_events := [] |} = Overrun.
Proof.
  apply (raise_up_iface_overrun_iff LittleEndian 16 shell_quote system_ok).
  - apply Nat.leb_le. reflexivity.
  - eexists. split; [vm_compute; reflexivity |].
    right; right; left. apply Nat.ltb_lt. reflexivity.
Defined.

(** The address command is refused after the link came up. *)
Lemma raise_up_iface_command_order_witness :
  exists evs,
    [EvSystem (lit "/sbin/ip link set dev 'tun0' up mtu 1500") 0%Z;
     EvSystem (lit "/sbin/ip addr add dev 'tun0' '10.0.0.1/8' broadcast '10.255.255.255'") (-1)%Z]
    = [] ++ evs.
Proof.
  assert (Hrun : raise_up_iface LittleEndian 16 shell_quote
            system_second_fails {| w_iface := cfg_10; w_events := [] |} =
          Ok (false,
              {| w_iface := cfg_10;
                 w_events :=
                   [EvSystem (lit "/sbin/ip link set dev 'tun0' up mtu 1500") 0;
                    EvSystem (lit "/sbin/ip addr add dev 'tun0' '10.0.0.1/8' broadcast '10.255.255.255'") (-1)] |}))
    by (vm_compute; reflexivity).
  destruct (raise_up_iface_command_order LittleEndian 16 shell_quote
              system_second_fails _ false _ Hrun)
    as (evs & Hevs & _).
  exists evs. exact Hevs.
Defined.

Lemma derive_addresses_subnet_witness :
  exists d a m,
    derive_addresses LittleEndian 16 cfg_192 = Ok (Some d) /\
    N.land (be32_load LittleEndian a) (be32_load LittleEndian m) =
      b_ipv4_network d /\
    N.land (b_ipv4_broadcast d) (be32_load LittleEndian m) = b_ipv4_network d.
Proof.
  eexists.
  assert (Hd : derive_addresses LittleEndian 16 cfg_192 = Ok (Some ?[d]))
    by (vm_compute; reflexivity).
  destruct (derive_addresses_subnet LittleEndian 16 cfg_192 _ Hd)
    as (a & m & _ & _ & H).
  cbv zeta in H. destruct H as (H1 & _ & H3 & _).
  exists a, m. split; [exact Hd |]. split; assumption.
Defined.

Lemma main_status_and_usage_witness :
  fst (main run_server_77 (lit "9.9.9") (lit "teavpn2") [lit "bogus"])
    = EINVAL.
Proof.
  destruct (main_status_and_usage run_server_77 (lit "9.9.9") (lit "teavpn2")
              [lit "bogus"])
    as (_ & _ & Hinv & _).
  - intros argv1 rest H. injection H as <- _. discriminate.
  - cbv zeta in Hinv. apply Hinv.
    exists (lit "bogus"), []. repeat split; discriminate.
Defined.

(** [main] with a mode word that only begins with [server]. *)
Example main_server_prefix_run :
  main run_server_77 (lit "9.9.9") (lit "teavpn2")
    [lit "server-old"; lit "--help"] =
  (77%Z,
   [MeArInit 16384; MeRunServer [lit "server-old"; lit "--help"] 77]).
Proof. reflexivity. Qed.

Lemma in_addr_eq_of_octets (a b : in_addr) :
  ((oc0 a =? oc0 b) && (oc1 a =? oc1 b) &&
   (oc2 a =? oc2 b) && (oc3 a =? oc3 b))%N = true -> a = b.
Proof.
  destruct a, b. cbn [oc0 oc1 oc2 oc3]. rewrite !andb_true_iff.
  intros [[[H0 H1] H2] H3].
  apply N.eqb_eq in H0, H1, H2, H3. congruence.
Qed.

(** X16: for the netmask of prefix length [p] (a run of [p] leading ones,
    which is a dotted-quad [inet_pton] accepts and has [p] set bits), the
    loop of [raise_up_iface] counts [p] rounded up to the next multiple of 8
    on a little-endian host, and 32 for every [p] but 0 on a big-endian
    one: it counts [p] itself only for the prefix lengths 0, 8, 16, 24 and
    32 on the one, 0 and 32 on the other. *)
Theorem contiguous_mask_prefix (p : N) :
  (p <= 32)%N ->
  inet_pton (dotted (prefix_mask p)) = Some (prefix_mask p) /\
  popcount (be32_load LittleEndian (prefix_mask p)) = p /\
  popcount (be32_load BigEndian (prefix_mask p)) = p /\
  cidr_loop (be32_load LittleEndian (prefix_mask p)) 0 =
    (8 * ((p + 7) / 8))%N /\
  cidr_loop (be32_load BigEndian (prefix_mask p)) 0 =
    (if (p =? 0)%N then 0 else 32)%N.
Proof.
  intros Hp.
  assert (Hall : forall_below 33 (fun p =>
            match inet_pton (dotted (prefix_mask p)) with
            | Some a =>
                ((oc0 a =? oc0 (prefix_mask p)) &&
                 (oc1 a =? oc1 (prefix_mask p)) &&
                 (oc2 a =? oc2 (prefix_mask p)) &&
                 (oc3 a =? oc3 (prefix_mask p)))%N
            | None => false
            end &&
            (popcount (be32_load LittleEndian (prefix_mask p)) =? p)%N &&
            (popcount (be32_load BigEndian (prefix_mask p)) =? p)%N &&
            (cidr_loop (be32_load LittleEndian (prefix_mask p)) 0 =?
               8 * ((p + 7) / 8))%N &&
            (cidr_loop (be32_load BigEndian (prefix_mask p)) 0 =?
               (if (p =? 0)%N then 0 else 32))%N) = true)
    by (vm_compute; reflexivity).
  pose proof (forall_below_spec _ _ Hall p) as H. cbv beta in H.
  assert (Hlt : (p < N.of_nat 33)%N) by lia.
  specialize (H Hlt). rewrite !andb_true_iff in H.
  destruct H as [[[[H1 H2] H3] H4] H5].
  apply N.eqb_eq in H2, H3, H4, H5.
  repeat split; try assumption.
  destruct (inet_pton (dotted (prefix_mask p))) as [a |]; [| discriminate].
  f_equal. apply in_addr_eq_of_octets. exact H1.
Qed.

(** The netmask of prefix length 30 is 255.255.255.252. *)
Lemma contiguous_mask_prefix_witness :
  dotted (prefix_mask 30) = lit "255.255.255.252" /\
  cidr_loop (be32_load LittleEndian (prefix_mask 30)) 0 = 32%N /\
  popcount (be32_load LittleEndian (prefix_mask 30)) = 30%N.
Proof.
  destruct (contiguous_mask_prefix 30) as (_ & H2 & _ & H4 & _).
  - apply N.leb_le. reflexivity.
  - split; [reflexivity |]. split; [rewrite H4; reflexivity | exact H2].
Defined.

(** C2 (the code at names whose escaped form does not fit [e_dev[32]]): the
    name [a';reboot;'''''] has 15 characters, within the interface-name
    limit, and 35 once quoted; with it [raise_up_iface] derives the
    addresses and then writes past [e_dev] before any command is built, on
    either byte order, for every [IPV4LEN] and every behaviour of
    [system]. The same happens with a name of 32 plain characters under any
    escaping that does not shorten its text. At such configurations the
    source builds no command from well-formed escaped texts at all. *)
Theorem raise_up_iface_escaped_name_overruns (host : byte_order)
  (IPV4LEN : nat) (sys_system : list event -> cstr -> Z) :
  length (dev cfg_inject) = 15 /\
  length (shell_quote (dev cfg_inject)) = 35 /\
  raise_up_iface host IPV4LEN shell_quote sys_system
    {| w_iface := cfg_inject; w_events := [] |} = Overrun /\
  (forall escapeshellarg : cstr -> cstr,
     (forall s, length s <= length (escapeshellarg s)) ->
     raise_up_iface host IPV4LEN escapeshellarg sys_system
       {| w_iface := cfg_name32; w_events := [] |} = Overrun).
Proof.
  assert (Hm : inet_pton (lit "255.0.0.0") = Some (Octets 255 0 0 0))
    by (vm_compute; reflexivity).
  assert (Ha : inet_pton (lit "10.0.0.1") = Some (Octets 10 0 0 1))
    by (vm_compute; reflexivity).
  assert (Hfit : forall n, Nat.leb n 16 = true -> n <= IPV4LEN + 16).
  { intros n Hn. apply Nat.leb_le in Hn. lia. }
  assert (Hderive : forall iface,
            ipv4 iface = lit "10.0.0.1" ->
            ipv4_netmask iface = lit "255.0.0.0" ->
            exists d, derive_addresses host IPV4LEN iface = Ok (Some d)).
  { intros iface Hi Hn.
    pose proof (derive_addresses_spec host IPV4LEN iface
                  (Octets 10 0 0 1) (Octets 255 0 0 0)) as Hd.
    rewrite Hi, Hn in Hd. specialize (Hd Ha Hm). cbv zeta in Hd.
    eexists. apply Hd; unfold IPV4SAFE; apply Hfit;
      destruct host; vm_compute; reflexivity. }
  split; [reflexivity |]. split; [reflexivity |]. split.
  - destruct (Hderive cfg_inject eq_refl eq_refl) as [d Hd].
    apply (raise_up_iface_name_overrun host IPV4LEN shell_quote sys_system
             {| w_iface := cfg_inject; w_events := [] |} d Hd).
    apply Nat.ltb_lt. reflexivity.
  - intros escapeshellarg Hlong.
    destruct (Hderive cfg_name32 eq_refl eq_refl) as [d Hd].
    apply (raise_up_iface_name_overrun host IPV4LEN escapeshellarg sys_system
             {| w_iface := cfg_name32; w_events := [] |} d Hd).
    cbn [w_iface].
    apply Nat.lt_le_trans with (length (dev cfg_name32));
      [apply Nat.ltb_lt; reflexivity | apply Hlong].
Qed.
